(** * SQL Query Explorer: the session orchestration of [src/app/page.tsx]

    A shallow embedding of the [SQLPanel] React component: its state hooks,
    its event handlers (split at their [await] points) and the guards the
    rendered markup puts on each trigger, followed by the properties of the
    session workflow. *)

From Stdlib Require Import String Ascii List Bool Arith Lia ZArith.
Import ListNotations.
Local Open Scope list_scope.
Local Open Scope string_scope.

(** ** JavaScript string primitives used by the panel *)

Module JS.

(** Truthiness of a string: only the empty string is falsy. *)
Definition truthy (s : string) : bool := negb (s =? "").

(** [a || b] on strings. *)
Definition or_else (a b : string) : string := if truthy a then a else b.

(** [a || b] where [a] may be [undefined]. *)
Definition opt_or_else (a : option string) (b : string) : string :=
  match a with
  | Some s => or_else s b
  | None => b
  end.

(** [s.includes(sub)]. *)
Definition includes (s sub : string) : bool :=
  match index 0 sub s with
  | Some _ => true
  | None => false
  end.

(** [s.split(sep)] for a one-character separator: every occurrence of the
    separator ends a token, so the empty string yields one empty token and
    two adjacent separators yield an empty token between them. *)
Fixpoint split (sep : ascii) (s : string) : list string :=
  match s with
  | EmptyString => [""]
  | String c rest =>
      if Ascii.eqb c sep then "" :: split sep rest
      else match split sep rest with
           | tok :: toks => String c tok :: toks
           | [] => [String c ""]
           end
  end.

(** GetSubstitution of ECMA-262 for a string pattern (no capture groups):
    in the replacement text [$$] stands for a dollar sign, [$&] for the
    matched text, [$`] for the text before the match and [$'] for the text
    after it; every other character, a lone [$] included, is copied. *)
Fixpoint GetSubstitution (matched preceding following template : string)
  : string :=
  match template with
  | EmptyString => ""
  | String "$" (String "$" rest) =>
      "$" ++ GetSubstitution matched preceding following rest
  | String "$" (String "&" rest) =>
      matched ++ GetSubstitution matched preceding following rest
  | String "$" (String "`" rest) =>
      preceding ++ GetSubstitution matched preceding following rest
  | String "$" (String "'" rest) =>
      following ++ GetSubstitution matched preceding following rest
  | String c rest =>
      String c (GetSubstitution matched preceding following rest)
  end.

(** [s.replace(searchValue, replaceValue)] with both arguments strings:
    only the first occurrence of [searchValue] is replaced, by the
    expansion of [replaceValue]. *)
Definition replace (s searchValue replaceValue : string) : string :=
  match index 0 searchValue s with
  | None => s
  | Some pos =>
      let preceding := substring 0 pos s in
      let tail := pos + String.length searchValue in
      let following := substring tail (String.length s - tail) s in
      preceding
        ++ GetSubstitution searchValue preceding following replaceValue
        ++ following
  end.

(** A thrown value, as the [catch] clauses inspect it. *)
Record Thrown := {
  isError : bool;          (* error instanceof Error *)
  name : string;           (* error.name *)
  message : string         (* error.message *)
}.

(** What [fetch] rejects with once its signal is aborted. *)
Definition AbortError : Thrown :=
  {| isError := true; name := "AbortError";
     message := "The user aborted a request." |}.

(** [new Error(msg).message]: the empty string when [msg] is undefined. *)
Definition new_Error (msg : option string) : Thrown :=
  {| isError := true; name := "Error";
     message := match msg with Some m => m | None => "" end |}.

End JS.

(** ** Data model *)

(** A result row: column names with the JSON text of their values. *)
Definition Row := list (string * string).

(** The [data] member of a result ([data?: any[]], in practice also a row
    count or [null]) and the [output] of the process launcher. *)
Inductive Data :=
| DUndefined                      (* member absent *)
| DNull
| DArray (rows : list Row)
| DNumber (n : Z)
| DText (s : string).

(** [interface QueryResult]. *)
Record QueryResult := {
  success : bool;
  data : Data;
  error : option string;
  message : option string
}.

(** The object literal [{ success: false, error: msg }]. *)
Definition failure (msg : string) : QueryResult :=
  {| success := false; data := DUndefined; error := Some msg; message := None |}.

(** The [credentials] state object. *)
Record Credentials := {
  host : string;
  port : string;
  user : string;
  password : string;
  database : string
}.

(** [AdminSettings.database]. *)
Record DatabaseDefaults := {
  default_host : string;
  default_port : string;
  default_user : string;
  default_password : string
}.

(** [AdminSettings.executable]. *)
Record ExecutableDefaults := {
  path : string;
  defaultParams : string
}.

(** [interface AdminSettings]. *)
Record AdminSettings := {
  settings_database : DatabaseDefaults;
  executable : ExecutableDefaults
}.

(** An [AbortController] object, known by its allocation number. *)
Definition AbortController := nat.

(** The state hooks of [SQLPanel], as one render sees them. *)
Record State := {
  credentials : Credentials;
  query : string;
  loading : bool;
  result : option QueryResult;
  databases : list string;
  isConnected : bool;
  abortController : option AbortController;
  csvFilename : string;
  executablePath : string;
  executableParams : string;
  savedCsvPath : string;
  adminSettings : AdminSettings
}.

(** The initial values passed to [useState]. *)
Definition initialCredentials : Credentials :=
  {| host := ""; port := ""; user := ""; password := ""; database := "" |}.

Definition initialState : State :=
  {| credentials := initialCredentials;
     query := "";
     loading := false;
     result := None;
     databases := [];
     isConnected := false;
     abortController := None;
     csvFilename := "";
     executablePath := "";
     executableParams := "";
     savedCsvPath := "";
     adminSettings :=
       {| settings_database :=
            {| default_host := ""; default_port := "";
               default_user := ""; default_password := "" |};
          executable := {| path := ""; defaultParams := "" |} |} |}.

(** ** Requests and their responses *)

(** JSON bodies decoded by [response.json()], one shape per route; the
    test-connection and execute-sql routes answer with a [QueryResult]. *)
Record SettingsJson := {                 (* /api/admin-settings *)
  settings_success : bool;
  settings : AdminSettings
}.

Record DatabasesJson := {                (* /api/list-databases *)
  list_success : bool;
  list_databases : list string;
  list_error : option string
}.

Record SaveCsvJson := {                  (* /api/save-csv *)
  save_success : bool;
  filePath : string;
  save_error : option string
}.

Record ExecuteFileJson := {              (* /api/execute-file *)
  run_success : bool;
  output : Data;
  run_error : option string
}.

(** How the awaited [fetch(...)] and [response.json()] of a handler end:
    with the decoded body, or in the handler's [catch]. *)
Inductive Settled (A : Type) :=
| Resolved (json : A)
| Threw (e : JS.Thrown).
Arguments Resolved {A} json.
Arguments Threw {A} e.

(** A handler suspended at its [await], with the request it sent and the
    variables its closure captured from the render it was created in. *)
Inductive Pending :=
| AwaitAdminSettings (captured : Credentials)
    (* loadSavedSettings; [credentials] of the mounting render *)
| AwaitTestConnection (body : Credentials) (seen : option QueryResult)
    (* Test Connection; [seen] is the [result] that the [fetchDatabases]
       of the same render refers to *)
| AwaitListDatabases (body : Credentials) (seen : option QueryResult)
    (* fetchDatabases, awaited in turn by Test Connection *)
| AwaitExecuteSql (body : Credentials) (sql : string) (signal : AbortController)
    (* handleSubmit *)
| AwaitSaveCsv (rows : Data) (filename : string)
    (* Save CSV; [rows] is [result.data] of the render that was clicked *)
| AwaitExecuteFile (filePath : string) (parameters : list string).
    (* Execute *)

(** The page: the committed state, the handlers awaiting a response, the
    controllers whose [abort()] has been called, and the allocation count. *)
Record World := {
  ui : State;
  inflight : list Pending;
  aborted : list AbortController;
  allocated : nat
}.

(** ** Effects of a handler

    A handler runs to its next [await] without interruption; what it does
    there is a sequence of state-setter calls, requests and signals, in
    program order.  Setters replace the hook's value, so a later call on the
    same hook wins. *)

Inductive Action :=
| setCredentials (c : Credentials)
| setQuery (q : string)
| setLoading (b : bool)
| setResult (r : option QueryResult)
| setDatabases (dbs : list string)
| setIsConnected (b : bool)
| setAbortController (c : option AbortController)
| setCsvFilename (f : string)
| setExecutablePath (p : string)
| setExecutableParams (p : string)
| setSavedCsvPath (p : string)
| setAdminSettings (s : AdminSettings)
| new_AbortController                 (* [new AbortController()] *)
| fetch (k : Pending)                  (* send the request, suspend at [await] *)
| abort (c : AbortController)          (* [c.abort()] *)
| console_error.                       (* [console.error(...)] *)

(** The hooks after one setter call: the hook named by the setter takes
    the value passed, every other hook keeps its own. *)
Definition set_state (a : Action) (s : State) : State :=
  {| credentials := match a with setCredentials c => c | _ => credentials s end;
     query := match a with setQuery q => q | _ => query s end;
     loading := match a with setLoading b => b | _ => loading s end;
     result := match a with setResult r => r | _ => result s end;
     databases := match a with setDatabases d => d | _ => databases s end;
     isConnected := match a with setIsConnected b => b | _ => isConnected s end;
     abortController :=
       match a with setAbortController c => c | _ => abortController s end;
     csvFilename := match a with setCsvFilename f => f | _ => csvFilename s end;
     executablePath :=
       match a with setExecutablePath p => p | _ => executablePath s end;
     executableParams :=
       match a with setExecutableParams p => p | _ => executableParams s end;
     savedCsvPath := match a with setSavedCsvPath p => p | _ => savedCsvPath s end;
     adminSettings :=
       match a with setAdminSettings x => x | _ => adminSettings s end |}.

Definition is_aborted (c : AbortController) (w : World) : bool :=
  existsb (Nat.eqb c) (aborted w).

Definition apply_action (a : Action) (w : World) : World :=
  match a with
  | new_AbortController =>
      {| ui := ui w; inflight := inflight w;
         aborted := aborted w; allocated := S (allocated w) |}
  | fetch k =>
      {| ui := ui w; inflight := k :: inflight w;
         aborted := aborted w; allocated := allocated w |}
  | abort c =>
      (* aborting an already aborted controller does nothing *)
      if is_aborted c w then w
      else {| ui := ui w; inflight := inflight w;
              aborted := c :: aborted w; allocated := allocated w |}
  | console_error => w
  | _ =>
      {| ui := set_state a (ui w); inflight := inflight w;
         aborted := aborted w; allocated := allocated w |}
  end.

(** Run a handler segment: its actions in program order. *)
Definition perform (acts : list Action) (w : World) : World :=
  fold_left (fun w a => apply_action a w) acts w.

(** ** The handlers of one render

    Every render creates the handlers anew, closed over that render's state;
    an event runs the handler of the latest render.  A handler that awaits is
    given in two parts: what it does up to the [await], and how it resumes
    from the suspended [Pending] once the request settles. *)

Section Render.

(** The state this render's closures see. *)
Variable st : State.

(** *** Credential and text inputs ([onChange]) *)

Definition onChangeHost (v : string) : list Action :=
  let c := credentials st in
  [setCredentials {| host := v; port := port c; user := user c;
                     password := password c; database := database c |}].

Definition onChangePort (v : string) : list Action :=
  let c := credentials st in
  [setCredentials {| host := host c; port := v; user := user c;
                     password := password c; database := database c |}].

Definition onChangeUser (v : string) : list Action :=
  let c := credentials st in
  [setCredentials {| host := host c; port := port c; user := v;
                     password := password c; database := database c |}].

Definition onChangePassword (v : string) : list Action :=
  let c := credentials st in
  [setCredentials {| host := host c; port := port c; user := user c;
                     password := v; database := database c |}].

Definition onChangeDatabase (v : string) : list Action :=
  let c := credentials st in
  [setCredentials {| host := host c; port := port c; user := user c;
                     password := password c; database := v |}].

(** *** fetchDatabases (lines 78-108), up to its [await] *)

Definition fetchDatabases : list Action :=
  [ setLoading true;
    fetch (AwaitListDatabases (credentials st) (result st)) ].

(** *** handleSubmit (lines 110-144), up to its [await]

    [controller] is the object [new AbortController()] returns. *)

Definition handleSubmit (controller : AbortController) : list Action :=
  [ setLoading true;
    setResult None;
    new_AbortController;
    setAbortController (Some controller);
    fetch (AwaitExecuteSql (credentials st) (query st) controller) ].

(** *** handleCancelQuery (lines 146-150) *)

Definition handleCancelQuery : list Action :=
  match abortController st with
  | Some c => [abort c]
  | None => []
  end.

(** *** Test Connection [onClick] (lines 294-320), up to its [await] *)

Definition onClickTestConnection : list Action :=
  [ setLoading true;
    setResult None;
    setIsConnected false;
    fetch (AwaitTestConnection (credentials st) (result st)) ].

(** *** Save CSV [onClick] (lines 425-453), up to its [await] *)

Definition onClickSaveCsv : list Action :=
  if negb (JS.truthy (csvFilename st)) then []
  else
    [ fetch (AwaitSaveCsv
               (match result st with Some r => data r | None => DUndefined end)
               (csvFilename st)) ].

(** *** Execute [onClick] (lines 368-395), up to its [await] *)

Definition onClickExecute : list Action :=
  if negb (JS.truthy (executablePath st)) then []
  else
    let params :=
      map (fun param => JS.replace param "{csv}" (savedCsvPath st))
          (JS.split " " (executableParams st)) in
    [ fetch (AwaitExecuteFile (executablePath st) params) ].

(** *** What the render shows and enables *)

(** The two submit buttons: the one shown while [loading] is disabled. *)
Definition submitDisabled : bool := loading st.

(** Cancel Query is rendered only in the [loading] branch. *)
Definition cancelRendered : bool := loading st.

(** Test Connection: [disabled={loading}]. *)
Definition testConnectionDisabled : bool := loading st.

(** The database selector: [isConnected && databases.length > 0]. *)
Definition databaseSelectRendered : bool :=
  isConnected st && Nat.ltb 0 (List.length (databases st)).

(** The [required] inputs of the form must be filled in for the browser
    to fire [onSubmit]. *)
Definition requiredFilled : bool :=
  let c := credentials st in
  JS.truthy (host c) && JS.truthy (port c) && JS.truthy (user c)
  && JS.truthy (password c) && JS.truthy (query st)
  && (if databaseSelectRendered then JS.truthy (database c) else true).

(** The Save CSV row:
    [result?.success && Array.isArray(result.data) && result.data.length > 0]. *)
Definition saveCsvRendered : bool :=
  match result st with
  | Some r =>
      success r &&
      match data r with
      | DArray rows => Nat.ltb 0 (List.length rows)
      | _ => false
      end
  | None => false
  end.

(** Save CSV: [disabled={!csvFilename}]. *)
Definition saveCsvDisabled : bool := negb (JS.truthy (csvFilename st)).

(** The Execute File card: [savedCsvPath && (...)]. *)
Definition executeCardRendered : bool := JS.truthy (savedCsvPath st).

(** Execute: [disabled={!executablePath}]. *)
Definition executeDisabled : bool := negb (JS.truthy (executablePath st)).

(** The text shown in the two inputs of the card (their [value]). *)
Definition executablePathShown : string :=
  JS.or_else (executablePath st) (path (executable (adminSettings st))).

Definition executableParamsShown : string :=
  JS.or_else (executableParams st)
             (defaultParams (executable (adminSettings st))).

End Render.

(** ** Resuming after the [await] *)

(** loadSavedSettings (lines 60-73).  [captured] is the [credentials] the
    effect closed over. *)
Definition loadSavedSettings_resumed
  (captured : Credentials) (o : Settled SettingsJson) : list Action :=
  match o with
  | Resolved data =>
      if settings_success data then
        setAdminSettings (settings data) ::
        (if negb (JS.truthy (host captured)) && negb (JS.truthy (port captured))
            && negb (JS.truthy (user captured))
            && negb (JS.truthy (password captured))
         then
           (* { ...credentials, ...data.settings.database } *)
           let d := settings_database (settings data) in
           [setCredentials {| host := default_host d; port := default_port d;
                              user := default_user d;
                              password := default_password d;
                              database := database captured |}]
         else [])
      else []
  | Threw _ => [console_error]
  end.

(** [result?.error?.includes('Failed to fetch databases')]. *)
Definition shows_fetch_failure (r : option QueryResult) : bool :=
  match r with
  | Some q =>
      match error q with
      | Some e => JS.includes e "Failed to fetch databases"
      | None => false
      end
  | None => false
  end.

(** fetchDatabases (lines 86-107), its [finally] included.  [seen] is the
    [result] the closure captured. *)
Definition fetchDatabases_resumed
  (seen : option QueryResult) (o : Settled DatabasesJson) : list Action :=
  match o with
  | Resolved data =>
      if list_success data then
        setDatabases (list_databases data) ::
        (if shows_fetch_failure seen then [setResult None] else [])
      else
        [ setResult (Some (failure (JS.opt_or_else (list_error data)
            "Failed to fetch databases. Please check your connection and try again.")));
          setIsConnected false ]
  | Threw _ =>
      [ setResult (Some (failure
          "Failed to fetch databases. Please check your connection and try again."));
        setIsConnected false ]
  end ++ [setLoading false].

(** Test Connection (lines 304-319): on success it calls the
    [fetchDatabases] of its own render and awaits it. *)
Definition onClickTestConnection_resumed
  (body : Credentials) (seen : option QueryResult) (o : Settled QueryResult)
  : list Action :=
  match o with
  | Resolved data =>
      setResult (Some data) ::
      (if success data then
         [ setIsConnected true;
           setLoading true;                                (* fetchDatabases *)
           fetch (AwaitListDatabases body seen) ]
       else [setIsConnected false; setLoading false])
  | Threw _ =>
      [ setResult (Some (failure "Failed to test connection. Please try again."));
        setLoading false ]
  end.

(** Test Connection once the awaited [fetchDatabases()] is done: only its
    [finally] is left. *)
Definition onClickTestConnection_finally : list Action := [setLoading false].

(** handleSubmit (lines 126-143). *)
Definition handleSubmit_resumed (o : Settled QueryResult) : list Action :=
  match o with
  | Resolved data => [setResult (Some data)]
  | Threw e =>
      if JS.isError e && (JS.name e =? "AbortError")
      then [setResult (Some (failure "Query cancelled by user."))]
      else [setResult (Some (failure "Failed to execute query. Please try again."))]
  end ++ [setLoading false; setAbortController None].

(** [error instanceof Error ? error.message : fallback], the [catch] of
    Save CSV and of Execute. *)
Definition caught_message (e : JS.Thrown) (fallback : string) : string :=
  if JS.isError e then JS.message e else fallback.

(** Save CSV (lines 436-452).  [rows] is the captured [result.data]. *)
Definition onClickSaveCsv_resumed (rows : Data) (o : Settled SaveCsvJson)
  : list Action :=
  match o with
  | Resolved data =>
      if save_success data then
        [ setSavedCsvPath (filePath data);
          setResult (Some {| success := true; data := rows; error := None;
                             message := Some "CSV file saved successfully" |}) ]
      else
        (* throw new Error(data.error), caught just below *)
        [ setResult (Some (failure
            (caught_message (JS.new_Error (save_error data))
                            "Failed to save CSV"))) ]
  | Threw e =>
      [ setResult (Some (failure (caught_message e "Failed to save CSV"))) ]
  end.

(** Execute (lines 383-394). *)
Definition onClickExecute_resumed (o : Settled ExecuteFileJson) : list Action :=
  match o with
  | Resolved data =>
      [ setResult (Some {| success := run_success data;
                           data := if run_success data then output data
                                   else DNull;
                           error := run_error data; message := None |}) ]
  | Threw e =>
      [ setResult (Some (failure (caught_message e "Failed to execute file"))) ]
  end.

(** ** The page as a transition system *)

(** What the network delivers for one request. *)
Inductive Response :=
| SettingsBody (json : SettingsJson)
| QueryBody (json : QueryResult)
| DatabasesBody (json : DatabasesJson)
| SaveCsvBody (json : SaveCsvJson)
| ExecuteFileBody (json : ExecuteFileJson).

Inductive Outcome :=
| Fulfilled (r : Response)
| Rejected (e : JS.Thrown).

(** Operator input and network completions. *)
Inductive Event :=
| ChangeHost (v : string)
| ChangePort (v : string)
| ChangeUser (v : string)
| ChangePassword (v : string)
| ChangeDatabase (v : string)
| ChangeQuery (v : string)
| ChangeCsvFilename (v : string)
| ChangeExecutablePath (v : string)
| ChangeExecutableParams (v : string)
| Submit                       (* the form's submit button, or Enter in a field *)
| ClickCancelQuery
| ClickTestConnection
| ClickSaveCsv
| ClickExecute
| Settle (i : nat) (o : Outcome).   (* the [i]-th suspended handler resumes *)

Fixpoint remove_nth {A : Type} (i : nat) (l : list A) : list A :=
  match l, i with
  | [], _ => []
  | _ :: t, O => t
  | h :: t, S j => h :: remove_nth j t
  end.

Definition forget (i : nat) (w : World) : World :=
  {| ui := ui w; inflight := remove_nth i (inflight w);
     aborted := aborted w; allocated := allocated w |}.

(** The continuation of a suspended handler for an outcome of its own route
    ([None] for a body of another route's shape).  A request whose signal
    was aborted rejects with an [AbortError], whatever the server does. *)
Definition resume (w : World) (k : Pending) (o : Outcome)
  : option (list Action) :=
  match k, o with
  | AwaitAdminSettings captured, Fulfilled (SettingsBody json) =>
      Some (loadSavedSettings_resumed captured (Resolved json))
  | AwaitAdminSettings captured, Rejected e =>
      Some (loadSavedSettings_resumed captured (Threw e))
  | AwaitTestConnection body seen, Fulfilled (QueryBody json) =>
      Some (onClickTestConnection_resumed body seen (Resolved json))
  | AwaitTestConnection body seen, Rejected e =>
      Some (onClickTestConnection_resumed body seen (Threw e))
  | AwaitListDatabases _ seen, Fulfilled (DatabasesBody json) =>
      Some (fetchDatabases_resumed seen (Resolved json)
              ++ onClickTestConnection_finally)%list
  | AwaitListDatabases _ seen, Rejected e =>
      Some (fetchDatabases_resumed seen (Threw e)
              ++ onClickTestConnection_finally)%list
  | AwaitExecuteSql _ _ signal, _ =>
      if is_aborted signal w
      then Some (handleSubmit_resumed (Threw JS.AbortError))
      else match o with
           | Fulfilled (QueryBody json) =>
               Some (handleSubmit_resumed (Resolved json))
           | Rejected e => Some (handleSubmit_resumed (Threw e))
           | _ => None
           end
  | AwaitSaveCsv rows _, Fulfilled (SaveCsvBody json) =>
      Some (onClickSaveCsv_resumed rows (Resolved json))
  | AwaitSaveCsv rows _, Rejected e =>
      Some (onClickSaveCsv_resumed rows (Threw e))
  | AwaitExecuteFile _ _, Fulfilled (ExecuteFileBody json) =>
      Some (onClickExecute_resumed (Resolved json))
  | AwaitExecuteFile _ _, Rejected e =>
      Some (onClickExecute_resumed (Threw e))
  | _, _ => None
  end.

(** One event.  A trigger that the current render does not show, or shows
    disabled, does not reach its handler. *)
Definition dispatch (ev : Event) (w : World) : World :=
  let st := ui w in
  match ev with
  | ChangeHost v => perform (onChangeHost st v) w
  | ChangePort v => perform (onChangePort st v) w
  | ChangeUser v => perform (onChangeUser st v) w
  | ChangePassword v => perform (onChangePassword st v) w
  | ChangeDatabase v =>
      if databaseSelectRendered st
         && existsb (String.eqb v) ("" :: databases st)
      then perform (onChangeDatabase st v) w else w
  | ChangeQuery v => perform [setQuery v] w
  | ChangeCsvFilename v =>
      if saveCsvRendered st then perform [setCsvFilename v] w else w
  | ChangeExecutablePath v =>
      if executeCardRendered st then perform [setExecutablePath v] w else w
  | ChangeExecutableParams v =>
      if executeCardRendered st then perform [setExecutableParams v] w else w
  | Submit =>
      if submitDisabled st || negb (requiredFilled st) then w
      else perform (handleSubmit st (allocated w)) w
  | ClickCancelQuery =>
      if cancelRendered st then perform (handleCancelQuery st) w else w
  | ClickTestConnection =>
      if testConnectionDisabled st then w
      else perform (onClickTestConnection st) w
  | ClickSaveCsv =>
      if saveCsvRendered st && negb (saveCsvDisabled st)
      then perform (onClickSaveCsv st) w else w
  | ClickExecute =>
      if executeCardRendered st && negb (executeDisabled st)
      then perform (onClickExecute st) w else w
  | Settle i o =>
      match nth_error (inflight w) i with
      | Some k =>
          match resume w k o with
          | Some acts => perform acts (forget i w)
          | None => w
          end
      | None => w
      end
  end.

(** The first render: initial state, and the mount effect (lines 56-76)
    sends its request closed over that render's [credentials]. *)
Definition loadSavedSettings (st : State) : list Action :=
  [fetch (AwaitAdminSettings (credentials st))].

Definition mounted : World :=
  perform (loadSavedSettings initialState)
          {| ui := initialState; inflight := []; aborted := []; allocated := 0 |}.

Definition run (evs : list Event) (w : World) : World :=
  fold_left (fun w ev => dispatch ev w) evs w.

Definition reachable (w : World) : Prop := exists evs, w = run evs mounted.

(** ** Session state

    The component keeps no state variable of this name; it is read off the
    handlers that are suspended.  (The passage through Cancelling happens
    inside [handleSubmit_resumed], when the [catch] sees the abort.) *)

Inductive SessionState := Idle | Probing | Listing | Executing.

Definition is_session (k : Pending) : bool :=
  match k with
  | AwaitTestConnection _ _ | AwaitListDatabases _ _ | AwaitExecuteSql _ _ _ => true
  | _ => false
  end.

Definition is_execution (k : Pending) : bool :=
  match k with
  | AwaitExecuteSql _ _ _ => true
  | _ => false
  end.

Definition session_requests (w : World) : list Pending :=
  filter is_session (inflight w).

Definition executions (w : World) : list Pending :=
  filter is_execution (inflight w).

Fixpoint sessionState_of (l : list Pending) : SessionState :=
  match l with
  | [] => Idle
  | AwaitTestConnection _ _ :: _ => Probing
  | AwaitListDatabases _ _ :: _ => Listing
  | AwaitExecuteSql _ _ _ :: _ => Executing
  | _ :: rest => sessionState_of rest
  end.

Definition sessionState (w : World) : SessionState :=
  sessionState_of (inflight w).

(** The discipline the guards maintain: at most one of Test Connection,
    fetchDatabases and handleSubmit is suspended; while one is, [loading]
    is set; [abortController] holds a controller exactly while a query is
    awaited, and it is that query's; only allocated controllers are held or
    aborted. *)
Definition session_ok (w : World) : Prop :=
  match session_requests w with
  | [] => abortController (ui w) = None
  | [AwaitExecuteSql _ _ c] =>
      loading (ui w) = true /\ abortController (ui w) = Some c
      /\ c < allocated w
  | [AwaitTestConnection _ _] | [AwaitListDatabases _ _] =>
      loading (ui w) = true /\ abortController (ui w) = None
  | _ => False
  end.

Definition inv (w : World) : Prop :=
  session_ok w /\ Forall (fun c => c < allocated w) (aborted w).

(** Setters of hooks other than [loading] and [abortController], and
    requests outside the session, leave the discipline alone. *)
Definition harmless (a : Action) : bool :=
  match a with
  | setLoading _ | setAbortController _ | new_AbortController | abort _ => false
  | fetch k => negb (is_session k)
  | _ => true
  end.

(** ** Sample sessions *)

(** The operator fills in the form and submits: a query is awaited. *)
Definition fill_in_form : list Event :=
  [ ChangeHost "localhost"; ChangePort "3306"; ChangeUser "root";
    ChangePassword "secret"; ChangeQuery "SELECT 1" ].

Definition executing_world : World := run (fill_in_form ++ [Submit]) mounted.

(** The operator cancels while the query is awaited. *)
Definition cancelling_world : World := run [ClickCancelQuery] executing_world.

(** The request fails on the network: [fetch] rejects with a [TypeError]. *)
Definition network_error : JS.Thrown :=
  {| JS.isError := true; JS.name := "TypeError";
     JS.message := "Failed to fetch" |}.

Definition failed_world : World :=
  run [Settle 0 (Rejected network_error)] executing_world.

(** The query returns one row. *)
Definition select_one : QueryResult :=
  {| success := true; data := DArray [[("1", "1")]];
     error := None; message := None |}.

Definition tabular_world : World :=
  run [Settle 0 (Fulfilled (QueryBody select_one))] executing_world.

(** The operator names a file and saves; the export is awaited. *)
Definition saving_world : World :=
  run [ChangeCsvFilename "out.csv"; ClickSaveCsv] tabular_world.

Definition saved_out_csv : SaveCsvJson :=
  {| save_success := true; filePath := "/tmp/out.csv"; save_error := None |}.

Definition exported_world : World :=
  run [Settle 0 (Fulfilled (SaveCsvBody saved_out_csv))] saving_world.

(** Test Connection succeeded and the database list is awaited. *)
Definition probe_ok : QueryResult :=
  {| success := true; data := DUndefined; error := None; message := None |}.

Definition probing_world : World :=
  run (fill_in_form ++ [ClickTestConnection]) mounted.

Definition listing_world : World :=
  run [Settle 0 (Fulfilled (QueryBody probe_ok))] probing_world.

(** ** Failed calls *)

(** A call fails when it throws or when the collaborator reports failure. *)
Definition enumeration_failed (o : Settled DatabasesJson) : bool :=
  match o with
  | Resolved json => negb (list_success json)
  | Threw _ => true
  end.

Definition export_failed (o : Settled SaveCsvJson) : bool :=
  match o with
  | Resolved json => negb (save_success json)
  | Threw _ => true
  end.

(** The outcome as the network event carries it. *)
Definition databases_outcome (o : Settled DatabasesJson) : Outcome :=
  match o with
  | Resolved json => Fulfilled (DatabasesBody json)
  | Threw e => Rejected e
  end.

Definition save_outcome (o : Settled SaveCsvJson) : Outcome :=
  match o with
  | Resolved json => Fulfilled (SaveCsvBody json)
  | Threw e => Rejected e
  end.

(** The message fetchDatabases shows for a failed call. *)
Definition enumeration_failure_message (o : Settled DatabasesJson) : string :=
  match o with
  | Resolved json =>
      JS.opt_or_else (list_error json)
        "Failed to fetch databases. Please check your connection and try again."
  | Threw _ =>
      "Failed to fetch databases. Please check your connection and try again."
  end.

(** The server refuses the login when asked for the databases. *)
Definition access_denied : DatabasesJson :=
  {| list_success := false; list_databases := [];
     list_error := Some "Access denied for user 'root'@'localhost'" |}.




(** A second export is started once the first is recorded. *)
Definition resaving_world : World := run [ClickSaveCsv] exported_world.

Definition permission_denied : SaveCsvJson :=
  {| save_success := false; filePath := "";
     save_error := Some "EACCES: permission denied" |}.

(** ** Sample invocations *)

(** The operator enters an executable and a parameter template. *)
Definition invoke_world : World :=
  run [ ChangeExecutablePath "/usr/bin/import";
        ChangeExecutableParams "--in {csv}" ] exported_world.

(** An export under a file name with dollar signs in it. *)
Definition saved_cost_csv : SaveCsvJson :=
  {| save_success := true; filePath := "/tmp/cost$$.csv"; save_error := None |}.

Definition dollar_world : World :=
  run [ ChangeCsvFilename "cost$$.csv"; ClickSaveCsv;
        Settle 0 (Fulfilled (SaveCsvBody saved_cost_csv));
        ChangeExecutablePath "/usr/bin/import";
        ChangeExecutableParams "--file={csv}" ] tabular_world.

(** Admin settings with executable defaults arrive after an export. *)
Definition ameise_settings : SettingsJson :=
  {| settings_success := true;
     settings :=
       {| settings_database :=
            {| default_host := "db.local"; default_port := "3306";
               default_user := "admin"; default_password := "pw" |};
          executable :=
            {| path := "C:\ameise.exe"; defaultParams := "--import {csv}" |} |} |}.

Definition defaults_world : World :=
  run [Settle 0 (Fulfilled (SettingsBody ameise_settings))] exported_world.

Definition own_tool_world : World :=
  run [ChangeExecutablePath "C:\tool.exe"] defaults_world.

(** The operator types a host before the admin settings arrive. *)
Definition settings_y1 : SettingsJson :=
  {| settings_success := true;
     settings :=
       {| settings_database :=
            {| default_host := "y"; default_port := "1";
               default_user := ""; default_password := "" |};
          executable := {| path := ""; defaultParams := "" |} |} |}.

Definition typed_first_world : World := run [ChangeHost "x"] mounted.

(** ** The whole workflow

    Probe, enumeration of two databases, selection of the second, a query
    with one row, its export, and the invocation of a tool on the export. *)
Definition two_databases : DatabasesJson :=
  {| list_success := true; list_databases := ["db1"; "db2"];
     list_error := None |}.

Definition workflow : list Event :=
  (fill_in_form ++
   [ ClickTestConnection;
     Settle 0 (Fulfilled (QueryBody probe_ok));
     Settle 0 (Fulfilled (DatabasesBody two_databases));
     ChangeDatabase "db2";
     Submit;
     Settle 0 (Fulfilled (QueryBody select_one));
     ChangeCsvFilename "out.csv";
     ClickSaveCsv;
     Settle 0 (Fulfilled (SaveCsvBody saved_out_csv));
     ChangeExecutablePath "/usr/bin/import";
     ChangeExecutableParams "--in {csv}";
     ClickExecute ])%list.

(** A string without a dollar sign. *)
Fixpoint dollar_free (s : string) : bool :=
  match s with
  | EmptyString => true
  | String c rest => negb (Ascii.eqb c "$") && dollar_free rest
  end.

(** The mount effect is the only sender of the settings request. *)
Definition closed_over_initial (k : Pending) : Prop :=
  match k with
  | AwaitAdminSettings captured => captured = initialCredentials
  | _ => True
  end.

Definition sends_no_settings (a : Action) : bool :=
  match a with
  | fetch (AwaitAdminSettings _) => false
  | _ => true
  end.

(** ** The results card (lines 405-507)

    What the card shows for the current [result]: nothing while there is
    none, a table for a success with at least one row (headers from the
    keys of the first row, one line of stringified values per row), the
    note "Query executed successfully." for any other success, and an alert
    with [result.error] for a failure.  [result.message] is not rendered. *)
Inductive ResultView :=
| NoCard
| TableView (headers : list string) (lines : list (list string))
| ExecutedView (affected : option Data)
    (* [None]: "No results to display."; [Some d]: "Affected rows: " and
       [JSON.stringify(d)] *)
| AlertView (description : option string).

Definition resultCard (st : State) : ResultView :=
  match result st with
  | None => NoCard
  | Some r =>
      if success r then
        match data r with
        | DArray (first :: rest) =>
            TableView (map fst first) (map (map snd) (first :: rest))
        | DNull => ExecutedView None           (* result.data === null *)
        | d => ExecutedView (Some d)
        end
      else AlertView (error r)
  end.

(** ** More of the session discipline *)

(** [loading] is cleared whenever no session handler is suspended. *)
Definition quiet (w : World) : Prop :=
  session_requests w = [] -> loading (ui w) = false.

(** While the probe is awaited the connected flag is down. *)
Definition probing_unconnected (w : World) : Prop :=
  sessionState w = Probing -> isConnected (ui w) = false.

(** An outcome of the shape the execute-sql and test-connection handlers
    expect. *)
Definition answers_query (o : Outcome) : bool :=
  match o with
  | Fulfilled (QueryBody _) | Rejected _ => true
  | _ => false
  end.

(** A failed probe: a throw, or a body reporting failure. *)
Definition probe_failed (o : Settled QueryResult) : bool :=
  match o with
  | Resolved json => negb (success json)
  | Threw _ => true
  end.

Definition query_outcome (o : Settled QueryResult) : Outcome :=
  match o with
  | Resolved json => Fulfilled (QueryBody json)
  | Threw e => Rejected e
  end.

Definition execute_file_outcome (o : Settled ExecuteFileJson) : Outcome :=
  match o with
  | Resolved json => Fulfilled (ExecuteFileBody json)
  | Threw e => Rejected e
  end.

(** The result Execute shows for an outcome (lines 384-393). *)
Definition invocation_result (o : Settled ExecuteFileJson) : QueryResult :=
  match o with
  | Resolved json =>
      {| success := run_success json;
         data := if run_success json then output json else DNull;
         error := run_error json; message := None |}
  | Threw e => failure (caught_message e "Failed to execute file")
  end.

(** The query was cancelled and the page is Idle again. *)
Definition cancelled_world : World :=
  run [Settle 0 (Rejected JS.AbortError)] cancelling_world.

(** The enumeration failed on the network; the operator tests again. *)
Definition refused_world : World :=
  run [Settle 0 (Rejected network_error)] listing_world.

Definition retry_world : World := run [ClickTestConnection] refused_world.

(** A failed loading of the admin settings. *)
Definition settings_failed (o : Settled SettingsJson) : bool :=
  match o with
  | Resolved json => negb (settings_success json)
  | Threw _ => true
  end.

Definition settings_outcome (o : Settled SettingsJson) : Outcome :=
  match o with
  | Resolved json => Fulfilled (SettingsBody json)
  | Threw e => Rejected e
  end.

(** What the guards let through: a query goes out with the required fields
    filled in, an export with a file name and at least one row, an
    invocation with an executable path and at least one parameter. *)
Definition well_formed (k : Pending) : Prop :=
  match k with
  | AwaitExecuteSql body sql _ =>
      JS.truthy (host body) = true /\ JS.truthy (port body) = true
      /\ JS.truthy (user body) = true /\ JS.truthy (password body) = true
      /\ JS.truthy sql = true
  | AwaitSaveCsv rows filename =>
      JS.truthy filename = true
      /\ exists first rest, rows = DArray (first :: rest)
  | AwaitExecuteFile filePath parameters =>
      JS.truthy filePath = true /\ parameters <> []
  | _ => True
  end.

Definition sends_well_formed (a : Action) : Prop :=
  match a with
  | fetch k => well_formed k
  | _ => True
  end.

(** The tool is started on the export and its answer is awaited. *)
Definition invoking_world : World := run [ClickExecute] invoke_world.

Definition tool_failed : ExecuteFileJson :=
  {| run_success := false; output := DUndefined; run_error := None |}.

(** * Properties *)

(** ** Lists of suspended handlers *)

Section RemoveNth.

Context {A : Type} (f : A -> bool).

Lemma filter_nth_error_nonempty (l : list A) (i : nat) (k : A) :
  nth_error l i = Some k -> f k = true -> filter f l <> [].
Proof.
  revert i; induction l as [|h t IH]; intros [|j] Hnth Hk; simpl in *;
    try discriminate.
  - injection Hnth as ->. rewrite Hk. discriminate.
  - destruct (f h); [discriminate | eauto].
Qed.

Lemma filter_remove_nth_other (l : list A) (i : nat) (k : A) :
  nth_error l i = Some k -> f k = false ->
  filter f (remove_nth i l) = filter f l.
Proof.
  revert i; induction l as [|h t IH]; intros [|j] Hnth Hk; simpl in *;
    try discriminate.
  - injection Hnth as ->. now rewrite Hk.
  - rewrite (IH j Hnth Hk). reflexivity.
Qed.

Lemma filter_remove_nth_single (l : list A) (i : nat) (k q : A) :
  nth_error l i = Some k -> f k = true -> filter f l = [q] ->
  q = k /\ filter f (remove_nth i l) = [].
Proof.
  revert i; induction l as [|h t IH]; intros [|j] Hnth Hk Hq; simpl in *;
    try discriminate.
  - injection Hnth as ->. rewrite Hk in Hq. injection Hq as -> Ht. auto.
  - destruct (f h) eqn:Hh.
    + injection Hq as -> Ht.
      exfalso. exact (filter_nth_error_nonempty t j k Hnth Hk Ht).
    + eauto.
Qed.

End RemoveNth.

(** ** The guards keep the session discipline *)

(** Case analysis on every guard a handler branches on. *)
Ltac case_guards :=
  repeat match goal with
         | |- context [if ?b then _ else _] => destruct b
         end.


Lemma inv_mounted : inv mounted.
Proof. split; [reflexivity | constructor]. Qed.

Lemma harmless_action (a : Action) (w : World) :
  harmless a = true ->
  session_requests (apply_action a w) = session_requests w
  /\ loading (ui (apply_action a w)) = loading (ui w)
  /\ abortController (ui (apply_action a w)) = abortController (ui w)
  /\ aborted (apply_action a w) = aborted w
  /\ allocated (apply_action a w) = allocated w.
Proof.
  destruct a; simpl; try discriminate; auto.
  intros Hk. unfold session_requests; simpl.
  destruct (is_session k); [discriminate | auto].
Qed.

Lemma harmless_perform (acts : list Action) (w : World) :
  forallb harmless acts = true ->
  session_requests (perform acts w) = session_requests w
  /\ loading (ui (perform acts w)) = loading (ui w)
  /\ abortController (ui (perform acts w)) = abortController (ui w)
  /\ aborted (perform acts w) = aborted w
  /\ allocated (perform acts w) = allocated w.
Proof.
  revert w; induction acts as [|a acts IH]; intros w H; simpl in *; auto.
  apply andb_prop in H as [Ha Hacts].
  destruct (harmless_action a w Ha) as (E1 & E2 & E3 & E4 & E5).
  destruct (IH (apply_action a w) Hacts) as (F1 & F2 & F3 & F4 & F5).
  unfold perform in *. repeat split; congruence.
Qed.

Lemma inv_transfer (w w' : World) :
  session_requests w' = session_requests w ->
  loading (ui w') = loading (ui w) ->
  abortController (ui w') = abortController (ui w) ->
  aborted w' = aborted w ->
  allocated w' = allocated w ->
  inv w -> inv w'.
Proof.
  unfold inv, session_ok. intros -> -> -> -> ->. auto.
Qed.

Lemma inv_harmless (acts : list Action) (w : World) :
  forallb harmless acts = true -> inv w -> inv (perform acts w).
Proof.
  intros H Hw. destruct (harmless_perform acts w H) as (E1 & E2 & E3 & E4 & E5).
  now apply (inv_transfer w).
Qed.

Lemma inv_idle (w : World) :
  inv w -> loading (ui w) = false ->
  session_requests w = [] /\ abortController (ui w) = None.
Proof.
  intros [Hs _] Hl. unfold session_ok in Hs.
  destruct (session_requests w) as [|k [|k' l]]; auto.
  - destruct k; try contradiction; destruct Hs as [Hs _]; congruence.
  - destruct k; contradiction.
Qed.

Lemma inv_forget_other (w : World) (i : nat) (k : Pending) :
  nth_error (inflight w) i = Some k -> is_session k = false ->
  inv w -> inv (forget i w).
Proof.
  intros Hnth Hk. apply inv_transfer; try reflexivity.
  unfold session_requests; simpl.
  now apply filter_remove_nth_other with (k := k).
Qed.

(** Once the suspended session handler is taken out, none is left. *)
Lemma inv_forget_session (w : World) (i : nat) (k : Pending) :
  nth_error (inflight w) i = Some k -> is_session k = true -> inv w ->
  session_requests w = [k] /\ session_requests (forget i w) = [].
Proof.
  intros Hnth Hk [Hs _]. unfold session_ok in Hs.
  destruct (session_requests w) as [|q [|q' l]] eqn:E.
  - exfalso. exact (filter_nth_error_nonempty is_session _ i k Hnth Hk E).
  - destruct (filter_remove_nth_single is_session _ i k q Hnth Hk E) as [-> E'].
    auto.
  - destruct q; contradiction.
Qed.

Lemma Forall_lt_S (l : list nat) (n : nat) :
  Forall (fun c => c < n) l -> Forall (fun c => c < S n) l.
Proof. apply Forall_impl; intros; lia. Qed.

Lemma inv_submit (w : World) :
  inv w -> loading (ui w) = false ->
  inv (perform (handleSubmit (ui w) (allocated w)) w).
Proof.
  intros Hw Hl. destruct (inv_idle w Hw Hl) as [E _]. destruct Hw as [_ Ha].
  split.
  - unfold session_ok, session_requests in *; simpl. rewrite E. simpl.
    repeat split; lia.
  - simpl. now apply Forall_lt_S.
Qed.

Lemma inv_test_connection (w : World) :
  inv w -> loading (ui w) = false ->
  inv (perform (onClickTestConnection (ui w)) w).
Proof.
  intros Hw Hl. destruct (inv_idle w Hw Hl) as [E Hc]. destruct Hw as [_ Ha].
  split.
  - unfold session_ok, session_requests in *; simpl. rewrite E. simpl. auto.
  - exact Ha.
Qed.

Lemma inv_cancel (w : World) :
  inv w -> inv (perform (handleCancelQuery (ui w)) w).
Proof.
  intros Hw. unfold handleCancelQuery.
  destruct (abortController (ui w)) as [c|] eqn:Hc; [|exact Hw].
  simpl. destruct (is_aborted c w); [exact Hw|].
  destruct Hw as [Hs Ha]. split.
  - exact Hs.
  - simpl. constructor; [|exact Ha].
    unfold session_ok in Hs.
    destruct (session_requests w) as [|k [|k' l]]; try congruence.
    + destruct k; try contradiction; try (destruct Hs as [_ Hs]; congruence).
      destruct Hs as (_ & Hs & Hlt). congruence.
    + destruct k; contradiction.
Qed.

Lemma inv_settle (w : World) (i : nat) (k : Pending) (o : Outcome)
  (acts : list Action) :
  nth_error (inflight w) i = Some k -> resume w k o = Some acts ->
  inv w -> inv (perform acts (forget i w)).
Proof.
  intros Hnth Hres Hw.
  destruct k as [cap | body seen | body seen | body sql c | rows fn | fp ps].
  - (* loadSavedSettings *)
    apply inv_harmless; [|now apply (inv_forget_other w i _ Hnth)].
    destruct o as [[j| | | |]|e]; simpl in Hres; inversion Hres; subst; clear Hres;
      unfold loadSavedSettings_resumed;
      case_guards;
      reflexivity.
  - (* Test Connection *)
    destruct (inv_forget_session w i _ Hnth eq_refl Hw) as [E E'].
    pose proof Hw as [Hs Ha]. unfold session_ok in Hs. rewrite E in Hs.
    destruct Hs as [Hl Hc].
    assert (Hc' : abortController (ui (forget i w)) = None) by exact Hc.
    assert (Ha' : Forall (fun c => c < allocated (forget i w)) (aborted (forget i w)))
      by exact Ha.
    revert E' Hc' Ha'. generalize (forget i w) as w'. intros w' E' Hc' Ha'.
    unfold session_requests in E'.
    destruct o as [[|j| | |]|e]; simpl in Hres; inversion Hres; subst; clear Hres;
      unfold onClickTestConnection_resumed;
      case_guards;
      (split; [unfold session_ok, session_requests; simpl; rewrite E'; simpl; auto
              | exact Ha']).
  - (* fetchDatabases *)
    destruct (inv_forget_session w i _ Hnth eq_refl Hw) as [E E'].
    pose proof Hw as [Hs Ha]. unfold session_ok in Hs. rewrite E in Hs.
    destruct Hs as [Hl Hc].
    assert (Hc' : abortController (ui (forget i w)) = None) by exact Hc.
    assert (Ha' : Forall (fun c => c < allocated (forget i w)) (aborted (forget i w)))
      by exact Ha.
    revert E' Hc' Ha'. generalize (forget i w) as w'. intros w' E' Hc' Ha'.
    unfold session_requests in E'.
    destruct o as [[| |j| |]|e]; simpl in Hres; inversion Hres; subst; clear Hres;
      unfold fetchDatabases_resumed;
      case_guards;
      (split; [unfold session_ok, session_requests; simpl; rewrite E'; simpl; auto
              | exact Ha']).
  - (* handleSubmit *)
    destruct (inv_forget_session w i _ Hnth eq_refl Hw) as [E E'].
    destruct Hw as [_ Ha].
    assert (Ha' : Forall (fun c => c < allocated (forget i w)) (aborted (forget i w)))
      by exact Ha.
    assert (acts_shape : exists r, acts = [setResult r; setLoading false; setAbortController None]).
    { simpl in Hres.
      destruct (is_aborted c w), o as [[|j| | |]|e]; inversion Hres; subst;
        unfold handleSubmit_resumed; simpl;
        case_guards;
        eexists; reflexivity. }
    destruct acts_shape as [r ->].
    revert E' Ha'. generalize (forget i w) as w'. intros w' E' Ha'.
    unfold session_requests in E'.
    split; [unfold session_ok, session_requests; simpl; rewrite E'; simpl; auto
           | exact Ha'].
  - (* Save CSV *)
    apply inv_harmless; [|now apply (inv_forget_other w i _ Hnth)].
    destruct o as [[| | |j|]|e]; simpl in Hres; inversion Hres; subst; clear Hres;
      unfold onClickSaveCsv_resumed;
      case_guards;
      reflexivity.
  - (* Execute *)
    apply inv_harmless; [|now apply (inv_forget_other w i _ Hnth)].
    destruct o as [[| | | |j]|e]; simpl in Hres; inversion Hres; subst; clear Hres;
      reflexivity.
Qed.

Theorem dispatch_inv (ev : Event) (w : World) : inv w -> inv (dispatch ev w).
Proof.
  intros Hw. destruct ev; unfold dispatch;
    try (apply inv_harmless; [reflexivity | exact Hw]);
    try (match goal with |- context [if ?b then _ else _] => destruct b eqn:G end;
         [| exact Hw]; apply inv_harmless; [reflexivity | exact Hw]).
  - (* Submit *)
    destruct (submitDisabled (ui w) || negb (requiredFilled (ui w))) eqn:G;
      [exact Hw|].
    apply orb_false_elim in G as [G _]. now apply inv_submit.
  - (* Cancel *)
    destruct (cancelRendered (ui w)); [now apply inv_cancel | exact Hw].
  - (* Test Connection *)
    destruct (testConnectionDisabled (ui w)) eqn:G; [exact Hw|].
    now apply inv_test_connection.
  - (* Save CSV *)
    destruct (saveCsvRendered (ui w) && negb (saveCsvDisabled (ui w)));
      [|exact Hw].
    apply inv_harmless; [|exact Hw].
    unfold onClickSaveCsv. destruct (negb (JS.truthy (csvFilename (ui w)))); reflexivity.
  - (* Execute *)
    destruct (executeCardRendered (ui w) && negb (executeDisabled (ui w)));
      [|exact Hw].
    apply inv_harmless; [|exact Hw].
    unfold onClickExecute. destruct (negb (JS.truthy (executablePath (ui w)))); reflexivity.
  - (* Settle *)
    destruct (nth_error (inflight w) i) as [k|] eqn:Hnth; [|exact Hw].
    destruct (resume w k o) as [acts|] eqn:Hres; [|exact Hw].
    now apply (inv_settle w i k o).
Qed.

Theorem reachable_inv (w : World) : reachable w -> inv w.
Proof.
  intros [evs ->]. unfold run.
  generalize inv_mounted. generalize mounted.
  induction evs as [|ev evs IH]; intros w0 Hw0; simpl; auto.
  apply IH. now apply dispatch_inv.
Qed.

(** ** What the discipline gives *)

Lemma sessionState_of_session (l : list Pending) :
  sessionState_of l = sessionState_of (filter is_session l).
Proof.
  induction l as [|k l IH]; simpl; auto. destruct k; simpl; auto.
Qed.

Lemma busy_loading (w : World) :
  inv w -> sessionState w <> Idle -> loading (ui w) = true.
Proof.
  intros [Hs _] Hbusy. unfold session_ok, session_requests in Hs.
  unfold sessionState in Hbusy. rewrite sessionState_of_session in Hbusy.
  destruct (filter is_session (inflight w)) as [|k [|k' l]]; [simpl in *; congruence| |].
  - destruct k; tauto.
  - destruct k; contradiction.
Qed.

Lemma no_controller_unless_executing (w : World) :
  inv w -> sessionState w <> Executing -> abortController (ui w) = None.
Proof.
  intros [Hs _] Hst. unfold session_ok, session_requests in Hs.
  unfold sessionState in Hst. rewrite sessionState_of_session in Hst.
  destruct (filter is_session (inflight w)) as [|k [|k' l]]; auto.
  - destruct k; simpl in *; try tauto; congruence.
  - destruct k; contradiction.
Qed.

Lemma controller_when_executing (w : World) :
  inv w -> sessionState w = Executing ->
  exists body sql c,
    session_requests w = [AwaitExecuteSql body sql c]
    /\ abortController (ui w) = Some c.
Proof.
  intros [Hs _] Hst. unfold session_ok, session_requests in *.
  unfold sessionState in Hst. rewrite sessionState_of_session in Hst.
  destruct (filter is_session (inflight w)) as [|k [|k' l]]; [discriminate | |].
  - destruct k; try discriminate; try contradiction.
    destruct Hs as (_ & Hc & _). eauto.
  - destruct k; contradiction.
Qed.

Lemma executions_of_session (l : list Pending) :
  filter is_execution l = filter is_execution (filter is_session l).
Proof.
  induction l as [|k l IH]; simpl; auto.
  destruct k; simpl; congruence.
Qed.

Lemma one_execution (w : World) : inv w -> List.length (executions w) <= 1.
Proof.
  intros [Hs _]. unfold executions. rewrite executions_of_session.
  unfold session_ok, session_requests in Hs.
  destruct (filter is_session (inflight w)) as [|k [|k' l]].
  - simpl; lia.
  - simpl. destruct (is_execution k); simpl; lia.
  - destruct k; contradiction.
Qed.

(** ** Query submission *)

(** C1. Submit goes through only in Idle: on every reachable page with a
    probe, an enumeration or a query in flight, a submit attempt leaves the
    page as it is (same state, same requests in flight), and no reachable
    page has more than one query execution in flight. *)
Theorem submit_only_when_idle (w : World) :
  reachable w ->
  (sessionState w <> Idle -> dispatch Submit w = w)
  /\ (sessionState w = Executing ->
      inflight (dispatch Submit w) = inflight w /\ ui (dispatch Submit w) = ui w)
  /\ List.length (executions w) <= 1
  /\ List.length (executions (dispatch Submit w)) <= 1.
Proof.
  intros Hr. pose proof (reachable_inv w Hr) as Hw.
  assert (H : sessionState w <> Idle -> dispatch Submit w = w).
  { intros Hbusy. unfold dispatch, submitDisabled.
    now rewrite (busy_loading w Hw Hbusy). }
  repeat split.
  - exact H.
  - rewrite H; [reflexivity | congruence].
  - rewrite H; [reflexivity | congruence].
  - now apply one_execution.
  - apply one_execution. now apply dispatch_inv.
Qed.

Lemma submit_only_when_idle_witness :
  dispatch Submit executing_world = executing_world
  /\ List.length (executions executing_world) <= 1.
Proof.
  destruct (submit_only_when_idle executing_world) as (Hbusy & _ & Hone & _).
  - exists (fill_in_form ++ [Submit])%list. reflexivity.
  - split; [apply Hbusy; vm_compute; discriminate | exact Hone].
Defined.

Example executing_world_state :
  sessionState executing_world = Executing
  /\ executions executing_world
     = [AwaitExecuteSql
          {| host := "localhost"; port := "3306"; user := "root";
             password := "secret"; database := "" |} "SELECT 1" 0].
Proof. split; reflexivity. Qed.

(** C10. Submitting clears the displayed result: when a submission is
    accepted, the handler calls [setResult(null)] before it sends the
    execute-sql request, so the page that awaits the query shows no result,
    whatever was shown before; the database list, the connected flag and the
    saved CSV path are as they were. *)
Theorem submit_clears_result (w : World) :
  submitDisabled (ui w) || negb (requiredFilled (ui w)) = false ->
  let request :=
    AwaitExecuteSql (credentials (ui w)) (query (ui w)) (allocated w) in
  let w' := dispatch Submit w in
  (exists before,
      handleSubmit (ui w) (allocated w) = (before ++ [fetch request])%list
      /\ In (setResult None) before
      /\ forallb (fun a => match a with fetch _ => false | _ => true end) before
         = true)
  /\ inflight w' = request :: inflight w
  /\ sessionState w' = Executing
  /\ result (ui w') = None
  /\ databases (ui w') = databases (ui w)
  /\ isConnected (ui w') = isConnected (ui w)
  /\ savedCsvPath (ui w') = savedCsvPath (ui w).
Proof.
  intros Hguard. simpl. unfold dispatch. rewrite Hguard.
  split; [|repeat split].
  exists [setLoading true; setResult None; new_AbortController;
          setAbortController (Some (allocated w))].
  repeat split. simpl; auto.
Qed.

Lemma submit_clears_result_witness :
  result (ui failed_world)
  = Some (failure "Failed to execute query. Please try again.")
  /\ result (ui (dispatch Submit failed_world)) = None
  /\ databases (ui (dispatch Submit failed_world)) = databases (ui failed_world)
  /\ isConnected (ui (dispatch Submit failed_world))
     = isConnected (ui failed_world)
  /\ savedCsvPath (ui (dispatch Submit failed_world))
     = savedCsvPath (ui failed_world).
Proof.
  split; [reflexivity|].
  destruct (submit_clears_result failed_world eq_refl) as (_ & _ & _ & H).
  exact H.
Defined.

(** ** Cancellation *)

(** C9. On every reachable page, Cancel changes no state hook and no
    suspended handler, hence not the session state.  Outside Executing
    there is no controller to signal and the page is left exactly as it
    was; while Executing the controller of the awaited query is signalled;
    cancelling again changes nothing more. *)
Theorem cancel_only_signals (w : World) :
  reachable w ->
  let w' := dispatch ClickCancelQuery w in
  ui w' = ui w /\ inflight w' = inflight w /\ sessionState w' = sessionState w
  /\ (sessionState w <> Executing ->
      abortController (ui w) = None /\ w' = w)
  /\ (sessionState w = Executing ->
      exists body sql c,
        session_requests w = [AwaitExecuteSql body sql c]
        /\ abortController (ui w) = Some c
        /\ is_aborted c w' = true)
  /\ dispatch ClickCancelQuery w' = w'.
Proof.
  intros Hr. pose proof (reachable_inv w Hr) as Hw. cbv zeta.
  assert (Hdisp : dispatch ClickCancelQuery w
                  = match abortController (ui w) with
                    | Some c => if loading (ui w) then apply_action (abort c) w
                                else w
                    | None => w
                    end).
  { unfold dispatch, cancelRendered, handleCancelQuery.
    destruct (loading (ui w)), (abortController (ui w)); reflexivity. }
  assert (Hsame : ui (dispatch ClickCancelQuery w) = ui w
                  /\ inflight (dispatch ClickCancelQuery w) = inflight w).
  { rewrite Hdisp. destruct (abortController (ui w)) as [c|]; auto.
    destruct (loading (ui w)); auto. simpl.
    destruct (is_aborted c w); auto. }
  destruct Hsame as [Hui Hfl].
  repeat split; auto.
  - unfold sessionState. now rewrite Hfl.
  - now apply no_controller_unless_executing.
  - rewrite Hdisp, (no_controller_unless_executing w Hw); auto.
  - intros Hexec.
    destruct (controller_when_executing w Hw Hexec) as (body & sql & c & E & Hc).
    exists body, sql, c. repeat split; auto.
    rewrite Hdisp, Hc, (busy_loading w Hw) by congruence.
    simpl. destruct (is_aborted c w) eqn:Ha; auto.
    unfold is_aborted; simpl. now rewrite Nat.eqb_refl.
  - rewrite Hdisp. destruct (abortController (ui w)) as [c|] eqn:Hc.
    + destruct (loading (ui w)) eqn:Hl.
      * simpl. destruct (is_aborted c w) eqn:Ha.
        -- unfold dispatch, cancelRendered, handleCancelQuery.
           rewrite Hl, Hc. simpl. now rewrite Ha.
        -- unfold dispatch, cancelRendered, handleCancelQuery. simpl.
           rewrite Hl, Hc. simpl. unfold is_aborted at 1. simpl.
           now rewrite Nat.eqb_refl.
      * unfold dispatch, cancelRendered, handleCancelQuery. now rewrite Hl.
    + unfold dispatch, cancelRendered, handleCancelQuery. rewrite Hc.
      now destruct (loading (ui w)).
Qed.

Lemma cancel_only_signals_witness :
  let w' := dispatch ClickCancelQuery executing_world in
  ui w' = ui executing_world
  /\ inflight w' = inflight executing_world
  /\ sessionState w' = sessionState executing_world
  /\ dispatch ClickCancelQuery w' = w'
  /\ (let idle := failed_world in dispatch ClickCancelQuery idle = idle).
Proof.
  cbv zeta.
  destruct (cancel_only_signals executing_world) as (Hui & Hfl & Hst & _ & _ & Hidem).
  - exists (fill_in_form ++ [Submit])%list. reflexivity.
  - destruct (cancel_only_signals failed_world) as (_ & _ & _ & Hnoop & _).
    + exists (fill_in_form ++ [Submit; Settle 0 (Rejected network_error)])%list.
      reflexivity.
    + split; [exact Hui|]. split; [exact Hfl|]. split; [exact Hst|].
      split; [exact Hidem|]. apply Hnoop. vm_compute; discriminate.
Defined.

(** ** How a query execution ends *)

(** C2 (as amended). When the controller of an awaited query has been
    aborted, the handler resumes in its [catch] with the abort and the
    result shown is exactly the failure "Query cancelled by user.".  When it
    has not, a thrown error that is not an abort gives the failure "Failed
    to execute query. Please try again.", which differs from the
    cancellation message, and a body the server answers with is shown as it
    is, its message included. *)
Theorem execution_outcome
  (w : World) (i : nat) (body : Credentials) (sql : string)
  (c : AbortController) :
  nth_error (inflight w) i = Some (AwaitExecuteSql body sql c) ->
  (is_aborted c w = true ->
   forall o, result (ui (dispatch (Settle i o) w))
             = Some (failure "Query cancelled by user."))
  /\ (is_aborted c w = false ->
      forall e, JS.isError e && (JS.name e =? "AbortError") = false ->
        result (ui (dispatch (Settle i (Rejected e)) w))
        = Some (failure "Failed to execute query. Please try again.")
        /\ failure "Failed to execute query. Please try again."
           <> failure "Query cancelled by user.")
  /\ (is_aborted c w = false ->
      forall json, result (ui (dispatch (Settle i (Fulfilled (QueryBody json))) w))
                   = Some json).
Proof.
  intros Hnth. split; [|split].
  - intros Ha o. unfold dispatch. rewrite Hnth. simpl. rewrite Ha.
    destruct o as [[| | | |]|]; reflexivity.
  - intros Ha e He. split; [|discriminate].
    unfold dispatch. rewrite Hnth. simpl. rewrite Ha.
    unfold handleSubmit_resumed. rewrite He. reflexivity.
  - intros Ha json. unfold dispatch. rewrite Hnth. simpl. rewrite Ha.
    reflexivity.
Qed.

Lemma execution_outcome_witness :
  (forall o, result (ui (dispatch (Settle 0 o) cancelling_world))
             = Some (failure "Query cancelled by user."))
  /\ result (ui (dispatch (Settle 0 (Rejected network_error)) executing_world))
     = Some (failure "Failed to execute query. Please try again.")
  /\ result (ui (dispatch (Settle 0 (Fulfilled (QueryBody select_one)))
                          executing_world))
     = Some select_one.
Proof.
  pose (body := {| host := "localhost"; port := "3306"; user := "root";
                   password := "secret"; database := "" |}).
  destruct (execution_outcome cancelling_world 0 body "SELECT 1" 0 eq_refl)
    as (Hcancelled & _ & _).
  destruct (execution_outcome executing_world 0 body "SELECT 1" 0 eq_refl)
    as (_ & Hthrown & Hanswered).
  split; [exact (Hcancelled eq_refl)|].
  split; [exact (proj1 (Hthrown eq_refl network_error eq_refl))|].
  exact (Hanswered eq_refl select_one).
Defined.

(** C2 as stated fails: the query below is not cancelled, the server
    reports a failure, and what is shown is the cancellation message. *)
Lemma execution_failure_can_look_cancelled :
  let reported := failure "Query cancelled by user." in
  nth_error (inflight executing_world) 0
  = Some (AwaitExecuteSql
            {| host := "localhost"; port := "3306"; user := "root";
               password := "secret"; database := "" |} "SELECT 1" 0)
  /\ is_aborted 0 executing_world = false
  /\ success reported = false
  /\ result (ui (dispatch (Settle 0 (Fulfilled (QueryBody reported)))
                          executing_world))
     = Some (failure "Query cancelled by user.").
Proof. repeat split. Qed.

(** Cancel, then whatever the server does: the page ends Idle, showing the
    cancellation. *)
Example cancelled_run :
  forall o,
    let w := run [ClickCancelQuery; Settle 0 o] executing_world in
    result (ui w) = Some (failure "Query cancelled by user.")
    /\ sessionState w = Idle
    /\ loading (ui w) = false
    /\ abortController (ui w) = None.
Proof. intros [[| | | |]|]; repeat split. Qed.

(** ** Database enumeration *)

(** C5 (as amended). When the awaited enumeration fails, by a throw or by
    the collaborator's report, the result shown is a failure, the connected
    flag is cleared and the database list is kept.  The message is the
    collaborator's error text when it sent a non-empty one, and "Failed to
    fetch databases. Please check your connection and try again."
    otherwise.  This holds right after a successful probe too: the probe
    sets the flag, awaits the enumeration, and its failure clears the flag
    again. *)
Theorem enumeration_failure
  (w : World) (i : nat) (body : Credentials) (seen : option QueryResult)
  (o : Settled DatabasesJson) :
  nth_error (inflight w) i = Some (AwaitListDatabases body seen) ->
  enumeration_failed o = true ->
  let w' := dispatch (Settle i (databases_outcome o)) w in
  result (ui w') = Some (failure (enumeration_failure_message o))
  /\ (match o with
      | Resolved json =>
          list_error json = None \/ list_error json = Some ""
      | Threw _ => True
      end ->
      result (ui w')
      = Some (failure
          "Failed to fetch databases. Please check your connection and try again."))
  /\ isConnected (ui w') = false
  /\ databases (ui w') = databases (ui w)
  /\ loading (ui w') = false
  /\ (forall (w0 : World) (j : nat) (probe : QueryResult),
        nth_error (inflight w0) j = Some (AwaitTestConnection body seen) ->
        success probe = true ->
        let w1 := dispatch (Settle j (Fulfilled (QueryBody probe))) w0 in
        isConnected (ui w1) = true
        /\ nth_error (inflight w1) 0 = Some (AwaitListDatabases body seen)
        /\ isConnected (ui (dispatch (Settle 0 (databases_outcome o)) w1))
           = false).
Proof.
  intros Hnth Hfail. cbv zeta.
  assert (Hmain : forall v k,
    nth_error (inflight v) k = Some (AwaitListDatabases body seen) ->
    let v' := dispatch (Settle k (databases_outcome o)) v in
    result (ui v') = Some (failure (enumeration_failure_message o))
    /\ isConnected (ui v') = false
    /\ databases (ui v') = databases (ui v)
    /\ loading (ui v') = false).
  { intros v k Hk. cbv zeta. unfold dispatch. rewrite Hk.
    destruct o as [json|e]; simpl in *.
    - apply negb_true_iff in Hfail.
      unfold fetchDatabases_resumed. rewrite Hfail. simpl. repeat split.
    - repeat split. }
  destruct (Hmain w i Hnth) as (Hres & Hconn & Hdbs & Hload).
  split; [exact Hres|]. split; [|split; [exact Hconn|split; [exact Hdbs|split; [exact Hload|]]]].
  - rewrite Hres. destruct o as [json|e]; simpl; [|reflexivity].
    intros [-> | ->]; reflexivity.
  - intros w0 j probe Hj Hok.
    assert (H1 : isConnected (ui (dispatch (Settle j (Fulfilled (QueryBody probe))) w0)) = true
                 /\ nth_error (inflight (dispatch (Settle j (Fulfilled (QueryBody probe))) w0)) 0
                    = Some (AwaitListDatabases body seen)).
    { unfold dispatch. rewrite Hj. simpl. rewrite Hok. split; reflexivity. }
    destruct H1 as [Hc1 Hn1]. split; [exact Hc1|]. split; [exact Hn1|].
    exact (proj1 (proj2 (Hmain _ 0 Hn1))).
Qed.

Lemma enumeration_failure_witness :
  let w' := dispatch (Settle 0 (Rejected network_error)) listing_world in
  isConnected (ui listing_world) = true
  /\ result (ui w')
     = Some (failure
         "Failed to fetch databases. Please check your connection and try again.")
  /\ isConnected (ui w') = false
  /\ databases (ui w') = databases (ui listing_world)
  /\ loading (ui w') = false.
Proof.
  split; [reflexivity|].
  pose proof (enumeration_failure listing_world 0
                {| host := "localhost"; port := "3306"; user := "root";
                   password := "secret"; database := "" |}
                None (Threw network_error) eq_refl eq_refl) as H.
  cbv zeta in H. destruct H as (_ & Hmsg & Hconn & Hdbs & Hload & _).
  split; [exact (Hmsg I) | repeat split; assumption].
Defined.

(** C5 as stated fails: the enumeration below is refused by the server with
    a message of its own, and that message is shown instead of the fixed
    one. *)
Lemma enumeration_failure_shows_server_message :
  let w' := dispatch (Settle 0 (Fulfilled (DatabasesBody access_denied)))
                     listing_world in
  nth_error (inflight listing_world) 0
  = Some (AwaitListDatabases
            {| host := "localhost"; port := "3306"; user := "root";
               password := "secret"; database := "" |} None)
  /\ list_success access_denied = false
  /\ result (ui w')
     = Some (failure "Access denied for user 'root'@'localhost'")
  /\ result (ui w')
     <> Some (failure
          "Failed to fetch databases. Please check your connection and try again.").
Proof. repeat split. discriminate. Qed.

(** ** CSV export *)




(** C7. When the awaited export fails, by a throw or by the collaborator's
    report, the result shown becomes a failure and nothing else changes:
    the saved path is the one recorded before, so the Execute File card and
    the command line it would send are the same as before. *)
Theorem export_failure
  (w : World) (i : nat) (rows : Data) (filename : string)
  (o : Settled SaveCsvJson) :
  nth_error (inflight w) i = Some (AwaitSaveCsv rows filename) ->
  export_failed o = true ->
  let w' := dispatch (Settle i (save_outcome o)) w in
  (exists msg, result (ui w') = Some (failure msg))
  /\ savedCsvPath (ui w') = savedCsvPath (ui w)
  /\ executeCardRendered (ui w') = executeCardRendered (ui w)
  /\ executeDisabled (ui w') = executeDisabled (ui w)
  /\ onClickExecute (ui w') = onClickExecute (ui w).
Proof.
  intros Hnth Hfail. cbv zeta. unfold dispatch. rewrite Hnth.
  destruct o as [json|e]; simpl in *.
  - apply negb_true_iff in Hfail.
    unfold onClickSaveCsv_resumed. rewrite Hfail. simpl.
    repeat split. eexists; reflexivity.
  - repeat split. eexists; reflexivity.
Qed.

Lemma export_failure_witness :
  let w' := dispatch (Settle 0 (Fulfilled (SaveCsvBody permission_denied)))
                     resaving_world in
  savedCsvPath (ui resaving_world) = "/tmp/out.csv"
  /\ (exists msg, result (ui w') = Some (failure msg))
  /\ savedCsvPath (ui w') = savedCsvPath (ui resaving_world)
  /\ executeCardRendered (ui w') = executeCardRendered (ui resaving_world)
  /\ executeDisabled (ui w') = executeDisabled (ui resaving_world)
  /\ onClickExecute (ui w') = onClickExecute (ui resaving_world).
Proof.
  split; [reflexivity|].
  exact (export_failure resaving_world 0 (data select_one) "out.csv"
           (Resolved permission_denied) eq_refl eq_refl).
Defined.

(** ** Parameter substitution *)

Lemma GetSubstitution_dollar_free (matched preceding following template : string) :
  dollar_free template = true ->
  JS.GetSubstitution matched preceding following template = template.
Proof.
  induction template as [|c rest IH]; simpl; auto.
  intros H. apply andb_prop in H as [Hc Hrest].
  rewrite (IH Hrest).
  destruct c as [[] [] [] [] [] [] [] []]; try reflexivity.
  discriminate.
Qed.

(** A token without the placeholder passes through unchanged. *)
Lemma replace_absent (token path : string) :
  index 0 "{csv}" token = None -> JS.replace token "{csv}" path = token.
Proof. unfold JS.replace. now intros ->. Qed.

(** With a path free of dollar signs, the first placeholder of a token is
    replaced by the path and the rest of the token is kept. *)
Lemma replace_first (token path : string) (pos : nat) :
  index 0 "{csv}" token = Some pos -> dollar_free path = true ->
  JS.replace token "{csv}" path
  = substring 0 pos token ++ path
      ++ substring (pos + 5) (String.length token - (pos + 5)) token.
Proof.
  unfold JS.replace. intros -> Hfree.
  now rewrite GetSubstitution_dollar_free.
Qed.

(** The cases the workflow is described with, for the path "/tmp/out.csv". *)
Example substitution_cases :
  JS.replace "{csv}" "{csv}" "/tmp/out.csv" = "/tmp/out.csv"
  /\ JS.replace "--file={csv}" "{csv}" "/tmp/out.csv" = "--file=/tmp/out.csv"
  /\ JS.replace "plain" "{csv}" "/tmp/out.csv" = "plain"
  /\ map (fun param => JS.replace param "{csv}" "/tmp/out.csv")
         (JS.split " " "{csv} {csv}")
     = ["/tmp/out.csv"; "/tmp/out.csv"]
  /\ JS.replace "{csv}{csv}" "{csv}" "/tmp/out.csv" = "/tmp/out.csv{csv}".
Proof. repeat split. Qed.

Example invoke_world_command :
  inflight (dispatch ClickExecute invoke_world)
  = AwaitExecuteFile "/usr/bin/import" ["--in"; "/tmp/out.csv"]
      :: inflight invoke_world.
Proof. reflexivity. Qed.

(** C3. The substitution of a path with dollar signs: the export recorded
    "/tmp/cost$$.csv", the template is "--file={csv}", and the token sent to
    the process launcher is "--file=/tmp/cost$.csv", because [replace]
    reads [$$] in its replacement text as one dollar sign.  The token with
    the path itself put in place of the placeholder is not what is sent. *)
Theorem substitution_expands_dollar_patterns :
  savedCsvPath (ui dollar_world) = "/tmp/cost$$.csv"
  /\ executableParams (ui dollar_world) = "--file={csv}"
  /\ inflight (dispatch ClickExecute dollar_world)
     = AwaitExecuteFile "/usr/bin/import" ["--file=/tmp/cost$.csv"]
         :: inflight dollar_world
  /\ JS.replace "--file={csv}" "{csv}" "/tmp/cost$$.csv"
     <> "--file=" ++ "/tmp/cost$$.csv"
  /\ JS.replace "{csv}" "{csv}" "/tmp/a$&b.csv" = "/tmp/a{csv}b.csv".
Proof. repeat split. discriminate. Qed.

(** ** Executable defaults *)

(** C4. The admin defaults are shown in the two inputs but not used by the
    Execute button. With defaults path "C:\ameise.exe" and parameters
    "--import {csv}" loaded and both operator fields empty, the path input
    shows the default, yet the button is disabled and a click sends
    nothing.  With the operator's own path and an empty parameter field,
    the parameter input shows the default template, yet the click sends the
    single empty token. *)
Theorem execute_ignores_admin_defaults :
  (executablePath (ui defaults_world) = ""
   /\ executablePathShown (ui defaults_world) = "C:\ameise.exe"
   /\ executeCardRendered (ui defaults_world) = true
   /\ executeDisabled (ui defaults_world) = true
   /\ onClickExecute (ui defaults_world) = []
   /\ dispatch ClickExecute defaults_world = defaults_world)
  /\ (executablePath (ui own_tool_world) = "C:\tool.exe"
      /\ executableParams (ui own_tool_world) = ""
      /\ executableParamsShown (ui own_tool_world) = "--import {csv}"
      /\ savedCsvPath (ui own_tool_world) = "/tmp/out.csv"
      /\ inflight (dispatch ClickExecute own_tool_world)
         = AwaitExecuteFile "C:\tool.exe" [""] :: inflight own_tool_world).
Proof. repeat split. Qed.

(** ** Settings hydration *)

Lemma perform_inflight_closed (acts : list Action) (w : World) :
  forallb sends_no_settings acts = true ->
  Forall closed_over_initial (inflight w) ->
  Forall closed_over_initial (inflight (perform acts w)).
Proof.
  revert w; induction acts as [|a acts IH]; intros w Hacts Hw; simpl in *; auto.
  apply andb_prop in Hacts as [Ha Hacts]. apply (IH _ Hacts).
  destruct a; simpl; auto.
  - constructor; auto. destruct k; simpl; auto; discriminate.
  - destruct (is_aborted c w); auto.
Qed.

Lemma remove_nth_Forall {A : Type} (P : A -> Prop) (i : nat) (l : list A) :
  Forall P l -> Forall P (remove_nth i l).
Proof.
  intros H; revert i; induction H as [|h t Hh Ht IH]; intros [|j]; simpl; auto.
Qed.

Lemma resume_sends_no_settings (w : World) (k : Pending) (o : Outcome)
  (acts : list Action) :
  resume w k o = Some acts -> forallb sends_no_settings acts = true.
Proof.
  destruct k, o as [[| | | |]|]; simpl; intros H; try discriminate;
    repeat match type of H with
           | context [if ?b then _ else _] => destruct b
           end;
    try discriminate;
    injection H as <-;
    unfold loadSavedSettings_resumed, onClickTestConnection_resumed,
      fetchDatabases_resumed, handleSubmit_resumed, onClickSaveCsv_resumed,
      onClickExecute_resumed;
    case_guards; reflexivity.
Qed.

Lemma dispatch_inflight_closed (ev : Event) (w : World) :
  Forall closed_over_initial (inflight w) ->
  Forall closed_over_initial (inflight (dispatch ev w)).
Proof.
  intros Hw. destruct ev; unfold dispatch;
    repeat match goal with
           | |- context [if ?b then _ else _] => destruct b; try exact Hw
           end;
    try (apply perform_inflight_closed; [|exact Hw];
         unfold handleCancelQuery, onClickSaveCsv, onClickExecute;
         repeat match goal with
                | |- context [if ?b then _ else _] => destruct b
                | |- context [match ?x with Some _ => _ | None => _ end] =>
                    destruct x
                end;
         reflexivity).
  destruct (nth_error (inflight w) i) as [k|]; [|exact Hw].
  destruct (resume w k o) as [acts|] eqn:Hres; [|exact Hw].
  apply perform_inflight_closed.
  - exact (resume_sends_no_settings w k o acts Hres).
  - simpl. now apply remove_nth_Forall.
Qed.

Lemma reachable_inflight_closed (w : World) :
  reachable w -> Forall closed_over_initial (inflight w).
Proof.
  intros [evs ->]. unfold run.
  assert (H0 : Forall closed_over_initial (inflight mounted))
    by (repeat constructor).
  revert H0. generalize mounted.
  induction evs as [|ev evs IH]; intros w0 H0; simpl; auto.
  apply IH. now apply dispatch_inflight_closed.
Qed.

(** The settings request that is awaited was sent on mount, closed over the
    initial, empty credentials. *)
Lemma settings_closed_over_initial (w : World) (i : nat) (captured : Credentials) :
  reachable w -> nth_error (inflight w) i = Some (AwaitAdminSettings captured) ->
  captured = initialCredentials.
Proof.
  intros Hr Hnth.
  pose proof (reachable_inflight_closed w Hr) as H.
  rewrite Forall_forall in H.
  exact (H _ (nth_error_In _ _ Hnth)).
Qed.

(** Whatever the operator has typed meanwhile, loaded settings replace the
    four connection fields and empty the database field. *)
Lemma hydration_ignores_current_credentials
  (w : World) (i : nat) (captured : Credentials) (json : SettingsJson) :
  reachable w -> nth_error (inflight w) i = Some (AwaitAdminSettings captured) ->
  settings_success json = true ->
  credentials (ui (dispatch (Settle i (Fulfilled (SettingsBody json))) w))
  = let d := settings_database (settings json) in
    {| host := default_host d; port := default_port d; user := default_user d;
       password := default_password d; database := "" |}.
Proof.
  intros Hr Hnth Hok.
  rewrite (settings_closed_over_initial w i captured Hr Hnth) in Hnth.
  unfold dispatch. rewrite Hnth. simpl.
  unfold loadSavedSettings_resumed. rewrite Hok. reflexivity.
Qed.

(** C8. The operator has typed host "x" when the settings arrive with
    host "y" and port "1": every credentials field is at its initial value
    except the host, and after hydration the host is "y".  The guard tests
    the credentials of the mounting render, which are empty. *)
Theorem hydration_overwrites_typed_host :
  credentials (ui typed_first_world)
  = {| host := "x"; port := ""; user := ""; password := ""; database := "" |}
  /\ nth_error (inflight typed_first_world) 0
     = Some (AwaitAdminSettings initialCredentials)
  /\ credentials
       (ui (dispatch (Settle 0 (Fulfilled (SettingsBody settings_y1)))
                     typed_first_world))
     = {| host := "y"; port := "1"; user := ""; password := "";
          database := "" |}.
Proof. repeat split. Qed.

(** ** The whole workflow *)

Example workflow_run :
  let w := run workflow mounted in
  databases (ui w) = ["db1"; "db2"]
  /\ isConnected (ui w) = true
  /\ database (credentials (ui w)) = "db2"
  /\ savedCsvPath (ui w) = "/tmp/out.csv"
  /\ result (ui w)
     = Some {| success := true; data := DArray [[("1", "1")]]; error := None;
               message := Some "CSV file saved successfully" |}
  /\ nth_error (inflight w) 0
     = Some (AwaitExecuteFile "/usr/bin/import" ["--in"; "/tmp/out.csv"])
  /\ sessionState w = Idle.
Proof. repeat split. Qed.

(** ** Splitting and joining the parameter template *)

Lemma split_nonempty (sep : ascii) (s : string) : JS.split sep s <> [].
Proof.
  destruct s as [|c rest]; simpl; [discriminate|].
  destruct (Ascii.eqb c sep); [discriminate|].
  destruct (JS.split sep rest); discriminate.
Qed.

Lemma concat_cons_nonempty (sep x : string) (xs : list string) :
  xs <> [] -> String.concat sep (x :: xs) = x ++ sep ++ String.concat sep xs.
Proof. destruct xs; [congruence | reflexivity]. Qed.

(** X1. Joining the tokens of a template with the separator gives the
    template back: splitting loses nothing and invents nothing. *)
Theorem split_join (sep : ascii) (s : string) :
  String.concat (String sep "") (JS.split sep s) = s.
Proof.
  induction s as [|c rest IH]; simpl; [reflexivity|].
  destruct (Ascii.eqb c sep) eqn:E.
  - apply Ascii.eqb_eq in E as ->.
    rewrite concat_cons_nonempty by apply split_nonempty.
    simpl. now rewrite IH.
  - pose proof (split_nonempty sep rest) as Hne.
    destruct (JS.split sep rest) as [|tok toks]; [congruence|].
    destruct toks as [|tok' toks'].
    + simpl in *. now rewrite IH.
    + change (String.concat (String sep "") (String c tok :: tok' :: toks'))
        with (String c (tok ++ String sep "" ++ String.concat (String sep "") (tok' :: toks'))).
      f_equal. exact IH.
Qed.

Lemma split_no_separator (sep : ascii) (s : string) :
  Forall (fun tok => ~ In sep (list_ascii_of_string tok)) (JS.split sep s).
Proof.
  induction s as [|c rest IH]; simpl.
  - repeat constructor. intros [].
  - destruct (Ascii.eqb c sep) eqn:E.
    + constructor; [intros [] | exact IH].
    + apply Ascii.eqb_neq in E.
      destruct (JS.split sep rest) as [|tok toks]; [repeat constructor; simpl; tauto|].
      inversion IH; subst. constructor; auto.
      simpl. intros [->|Hin]; [congruence | auto].
Qed.

Lemma split_length (sep : ascii) (s : string) :
  List.length (JS.split sep s)
  = S (count_occ ascii_dec (list_ascii_of_string s) sep).
Proof.
  induction s as [|c rest IH]; simpl; [reflexivity|].
  destruct (Ascii.eqb c sep) eqn:E.
  - apply Ascii.eqb_eq in E as ->. simpl. rewrite IH.
    destruct (ascii_dec sep sep); congruence.
  - apply Ascii.eqb_neq in E.
    pose proof (split_nonempty sep rest) as Hne.
    destruct (JS.split sep rest) as [|tok toks]; [congruence|].
    simpl in *. rewrite IH. destruct (ascii_dec c sep); congruence.
Qed.

(** X2. No token contains the separator, and there is one token more than
    there are separators in the template; in particular the empty template
    gives one empty token. *)
Theorem split_tokens (sep : ascii) (s : string) :
  Forall (fun tok => ~ In sep (list_ascii_of_string tok)) (JS.split sep s)
  /\ List.length (JS.split sep s)
     = S (count_occ ascii_dec (list_ascii_of_string s) sep)
  /\ JS.split sep "" = [""].
Proof.
  split; [apply split_no_separator | split; [apply split_length | reflexivity]].
Qed.

(** ** Searching and replacing *)

Lemma substring_0_append (a b : string) :
  substring 0 (String.length a) (a ++ b) = a.
Proof. induction a as [|c a IH]; simpl; [now destruct b | now rewrite IH]. Qed.

Lemma substring_whole (s : string) : substring 0 (String.length s) s = s.
Proof. induction s as [|c s IH]; simpl; [reflexivity | now rewrite IH]. Qed.

Lemma substring_skip_append (a b : string) (m : nat) :
  substring (String.length a) m (a ++ b) = substring 0 m b.
Proof. induction a as [|c a IH]; simpl; auto. Qed.

Lemma length_append (a b : string) :
  String.length (a ++ b) = String.length a + String.length b.
Proof. induction a as [|c a IH]; simpl; auto. Qed.

Lemma prefix_split (p s : string) :
  prefix p s = true -> exists rest, s = p ++ rest.
Proof.
  revert s; induction p as [|a p IH]; intros s H.
  - exists s. reflexivity.
  - apply prefix_correct in H. destruct s as [|b s]; [discriminate|].
    simpl in H. injection H as -> H. apply prefix_correct in H.
    destruct (IH s H) as [rest ->]. exists rest. reflexivity.
Qed.

(** Where [index] finds the pattern, the string splits around it. *)
Lemma index_split (pat s : string) (pos : nat) :
  index 0 pat s = Some pos ->
  exists pre post, s = pre ++ pat ++ post /\ String.length pre = pos.
Proof.
  revert pos; induction s as [|b s IH]; intros pos H; cbn [index] in H.
  - destruct pat; [|discriminate]. injection H as <-.
    exists "", "". split; reflexivity.
  - destruct (prefix pat (String b s)) eqn:Hp.
    + injection H as <-. destruct (prefix_split _ _ Hp) as [rest ->].
      exists "", rest. split; reflexivity.
    + destruct (index 0 pat s) as [n|]; [|discriminate]. injection H as <-.
      destruct (IH n eq_refl) as (pre & post & -> & <-).
      exists (String b pre), post. split; reflexivity.
Qed.

(** X3. With a path free of dollar signs, replacing the placeholder in a
    token that contains it cuts the token at the first occurrence and puts
    the path there: the text before and after is kept, and the placeholder
    occurs at no earlier position. *)
Theorem replace_first_occurrence (token path : string) (pos : nat) :
  index 0 "{csv}" token = Some pos ->
  dollar_free path = true ->
  exists pre post,
    token = pre ++ "{csv}" ++ post
    /\ String.length pre = pos
    /\ JS.replace token "{csv}" path = pre ++ path ++ post
    /\ forall p, p < pos -> substring p 5 token <> "{csv}".
Proof.
  intros Hidx Hfree.
  destruct (index_split _ _ _ Hidx) as (pre & post & Htok & Hlen).
  exists pre, post. split; [exact Htok|]. split; [exact Hlen|]. split.
  - unfold JS.replace. rewrite Hidx. cbv zeta.
    rewrite GetSubstitution_dollar_free by exact Hfree.
    clear Hidx. subst token pos.
    rewrite substring_0_append.
    replace (String.length pre + String.length "{csv}")
      with (String.length (pre ++ "{csv}")) by apply length_append.
    replace (pre ++ "{csv}" ++ post) with ((pre ++ "{csv}") ++ post).
    + rewrite substring_skip_append.
      rewrite length_append, Nat.add_comm, Nat.add_sub.
      now rewrite substring_whole.
    + clear. induction pre as [|c pre IH]; simpl; [reflexivity | now rewrite IH].
  - intros p Hp. apply (index_correct2 0 pos "{csv}" token Hidx p); lia.
Qed.

Lemma replace_first_occurrence_witness :
  exists pre post,
    "--file={csv},{csv}" = pre ++ "{csv}" ++ post
    /\ String.length pre = 7
    /\ JS.replace "--file={csv},{csv}" "{csv}" "/tmp/out.csv"
       = pre ++ "/tmp/out.csv" ++ post
    /\ forall p, p < 7 -> substring p 5 "--file={csv},{csv}" <> "{csv}".
Proof.
  apply (replace_first_occurrence "--file={csv},{csv}" "/tmp/out.csv" 7);
    reflexivity.
Defined.

(** X4. [includes] answers true exactly when the text searched for occurs
    somewhere in the string. *)
Theorem includes_iff (s sub : string) :
  JS.includes s sub = true <-> exists pre post, s = pre ++ sub ++ post.
Proof.
  unfold JS.includes. split.
  - destruct (index 0 sub s) as [pos|] eqn:H; [|discriminate]. intros _.
    destruct (index_split _ _ _ H) as (pre & post & Hs & _). eauto.
  - intros (pre & post & ->).
    destruct (index 0 sub (pre ++ sub ++ post)) eqn:H; [reflexivity|].
    exfalso. destruct sub as [|c sub].
    + apply index_correct4 in H. lia.
    + apply (index_correct3 0 (String.length pre) _ _ H); [discriminate | lia |].
      rewrite substring_skip_append. apply substring_0_append.
Qed.

(** ** The spinner follows the session *)

Lemma quiet_harmless (acts : list Action) (w : World) :
  forallb harmless acts = true -> quiet w -> quiet (perform acts w).
Proof.
  intros H Hq. destruct (harmless_perform acts w H) as (E1 & E2 & _).
  unfold quiet. now rewrite E1, E2.
Qed.

Lemma quiet_settle (w : World) (i : nat) (k : Pending) (o : Outcome)
  (acts : list Action) :
  nth_error (inflight w) i = Some k -> resume w k o = Some acts ->
  inv w -> quiet w -> quiet (perform acts (forget i w)).
Proof.
  intros Hnth Hres Hw Hq.
  assert (Hother : is_session k = false -> forallb harmless acts = true ->
                   quiet (perform acts (forget i w))).
  { intros Hk Hacts. apply quiet_harmless; [exact Hacts|].
    unfold quiet, session_requests. simpl.
    now rewrite (filter_remove_nth_other is_session _ i k Hnth Hk). }
  destruct k as [cap | body seen | body seen | body sql c | rows fn | fp ps].
  - apply Hother; [reflexivity|].
    destruct o as [[j| | | |]|e]; simpl in Hres; inversion Hres; subst;
      unfold loadSavedSettings_resumed; case_guards; reflexivity.
  - destruct o as [[|j| | |]|e]; simpl in Hres; inversion Hres; subst;
      unfold onClickTestConnection_resumed, quiet, session_requests;
      case_guards; simpl; auto; discriminate.
  - destruct o as [[| |j| |]|e]; simpl in Hres; inversion Hres; subst;
      unfold fetchDatabases_resumed, quiet; case_guards; reflexivity.
  - simpl in Hres.
    destruct (is_aborted c w), o as [[|j| | |]|e]; inversion Hres; subst;
      unfold handleSubmit_resumed, quiet; simpl; case_guards; reflexivity.
  - apply Hother; [reflexivity|].
    destruct o as [[| | |j|]|e]; simpl in Hres; inversion Hres; subst;
      unfold onClickSaveCsv_resumed; case_guards; reflexivity.
  - apply Hother; [reflexivity|].
    destruct o as [[| | | |j]|e]; simpl in Hres; inversion Hres; subst;
      reflexivity.
Qed.

Lemma dispatch_quiet (ev : Event) (w : World) :
  inv w -> quiet w -> quiet (dispatch ev w).
Proof.
  intros Hw Hq. destruct ev; unfold dispatch;
    try (apply quiet_harmless; [reflexivity | exact Hq]);
    try (match goal with |- context [if ?b then _ else _] => destruct b eqn:G end;
         [| exact Hq]; apply quiet_harmless; [reflexivity | exact Hq]).
  - destruct (submitDisabled (ui w) || negb (requiredFilled (ui w)));
      [exact Hq | unfold quiet, session_requests; simpl; discriminate].
  - destruct (cancelRendered (ui w)); [|exact Hq].
    unfold handleCancelQuery. destruct (abortController (ui w)) as [c|]; [|exact Hq].
    simpl. destruct (is_aborted c w); exact Hq.
  - destruct (testConnectionDisabled (ui w));
      [exact Hq | unfold quiet, session_requests; simpl; discriminate].
  - destruct (saveCsvRendered (ui w) && negb (saveCsvDisabled (ui w)));
      [|exact Hq].
    apply quiet_harmless; [|exact Hq].
    unfold onClickSaveCsv. case_guards; reflexivity.
  - destruct (executeCardRendered (ui w) && negb (executeDisabled (ui w)));
      [|exact Hq].
    apply quiet_harmless; [|exact Hq].
    unfold onClickExecute. case_guards; reflexivity.
  - destruct (nth_error (inflight w) i) as [k|] eqn:Hnth; [|exact Hq].
    destruct (resume w k o) as [acts|] eqn:Hres; [|exact Hq].
    now apply (quiet_settle w i k o).
Qed.

Lemma reachable_quiet (w : World) : reachable w -> quiet w.
Proof.
  intros [evs ->]. unfold run.
  assert (H : inv mounted /\ quiet mounted)
    by (split; [exact inv_mounted | intros _; reflexivity]).
  revert H. generalize mounted.
  induction evs as [|ev evs IH]; intros w0 [Hi Hq]; simpl; auto.
  apply IH. split; [now apply dispatch_inv | now apply dispatch_quiet].
Qed.

Lemma idle_iff_no_session (w : World) :
  sessionState w = Idle <-> session_requests w = [].
Proof.
  unfold sessionState, session_requests. rewrite sessionState_of_session.
  assert (H : Forall (fun k => is_session k = true)
                     (filter is_session (inflight w))).
  { apply Forall_forall. intros k Hk. now apply filter_In in Hk. }
  destruct (filter is_session (inflight w)) as [|k l]; [tauto|].
  inversion H; subst. split; [|discriminate].
  destruct k; simpl in *; discriminate.
Qed.

(** X5. On every reachable page the spinner is on exactly while a probe,
    an enumeration or a query is awaited: [loading] is never left set once
    the session is back to Idle, so the submit and Test Connection buttons
    are enabled again. *)
Theorem loading_iff_busy (w : World) :
  reachable w ->
  (loading (ui w) = true <-> sessionState w <> Idle)
  /\ (sessionState w = Idle ->
      submitDisabled (ui w) = false /\ testConnectionDisabled (ui w) = false).
Proof.
  intros Hr. pose proof (reachable_inv w Hr) as Hw.
  pose proof (reachable_quiet w Hr) as Hq.
  assert (Hidle : sessionState w = Idle -> loading (ui w) = false).
  { intros H. apply Hq. now apply idle_iff_no_session. }
  split; [split|].
  - intros Hl Hi. rewrite (Hidle Hi) in Hl. discriminate.
  - now apply busy_loading.
  - intros Hi. unfold submitDisabled, testConnectionDisabled.
    rewrite (Hidle Hi). split; reflexivity.
Qed.

Lemma loading_iff_busy_witness :
  loading (ui failed_world) = false
  /\ submitDisabled (ui failed_world) = false
  /\ testConnectionDisabled (ui failed_world) = false.
Proof.
  destruct (loading_iff_busy failed_world) as (_ & Hidle).
  - exists (fill_in_form ++ [Submit; Settle 0 (Rejected network_error)])%list. vm_compute. reflexivity.
  - split; [reflexivity | apply Hidle; reflexivity].
Defined.

(** X6. Test Connection goes through only in Idle: on every reachable page
    with a probe, an enumeration or a query awaited, clicking it changes
    nothing and sends nothing. *)
Theorem test_connection_only_when_idle (w : World) :
  reachable w -> sessionState w <> Idle ->
  dispatch ClickTestConnection w = w.
Proof.
  intros Hr Hbusy. unfold dispatch, testConnectionDisabled.
  now rewrite (busy_loading w (reachable_inv w Hr) Hbusy).
Qed.

Lemma test_connection_only_when_idle_witness :
  dispatch ClickTestConnection executing_world = executing_world.
Proof.
  apply (test_connection_only_when_idle executing_world).
  - exists (fill_in_form ++ [Submit])%list. vm_compute. reflexivity.
  - vm_compute; discriminate.
Defined.

(** ** Leaving the session *)

Lemma settled_session_idle (w : World) (i : nat) (k : Pending)
  (acts : list Action) :
  inv w -> nth_error (inflight w) i = Some k -> is_session k = true ->
  forallb (fun a => match a with fetch _ => false | _ => true end) acts = true ->
  sessionState (perform acts (forget i w)) = Idle
  /\ inflight (perform acts (forget i w)) = remove_nth i (inflight w).
Proof.
  intros Hw Hnth Hk Hacts.
  destruct (inv_forget_session w i k Hnth Hk Hw) as [_ E].
  assert (Hfl : forall v, inflight (perform acts v) = inflight v).
  { clear - Hacts. induction acts as [|a acts IH]; intros v; simpl in *; auto.
    apply andb_prop in Hacts as [Ha Hacts].
    unfold perform in IH. rewrite (IH Hacts).
    destruct a; simpl; try reflexivity; try discriminate.
    destruct (is_aborted c v); reflexivity. }
  split; [|now rewrite Hfl].
  apply idle_iff_no_session. unfold session_requests. now rewrite Hfl.
Qed.

(** X7. However an awaited query ends (a body, a throw, or the abort of its
    controller), the page is back to Idle afterwards: the handler is no
    longer suspended, the spinner is off and the controller is dropped. *)
Theorem execution_returns_to_idle
  (w : World) (i : nat) (body : Credentials) (sql : string)
  (c : AbortController) (o : Outcome) :
  reachable w ->
  nth_error (inflight w) i = Some (AwaitExecuteSql body sql c) ->
  is_aborted c w || answers_query o = true ->
  let w' := dispatch (Settle i o) w in
  sessionState w' = Idle
  /\ inflight w' = remove_nth i (inflight w)
  /\ loading (ui w') = false
  /\ abortController (ui w') = None
  /\ (exists r, result (ui w') = Some r).
Proof.
  intros Hr Hnth Ho. cbv zeta. pose proof (reachable_inv w Hr) as Hw.
  assert (Hres : exists r, resume w (AwaitExecuteSql body sql c) o
                 = Some [setResult (Some r); setLoading false;
                         setAbortController None]).
  { simpl. destruct (is_aborted c w); simpl in Ho.
    - eexists; reflexivity.
    - destruct o as [[|j| | |]|e]; try discriminate;
        unfold handleSubmit_resumed; case_guards; eexists; reflexivity. }
  destruct Hres as [r Hres]. unfold dispatch. rewrite Hnth, Hres.
  destruct (settled_session_idle w i _
              [setResult (Some r); setLoading false; setAbortController None]
              Hw Hnth eq_refl eq_refl) as [Hidle Hfl].
  repeat split; auto. exists r. reflexivity.
Qed.

Lemma execution_returns_to_idle_witness :
  let w' := dispatch (Settle 0 (Fulfilled (QueryBody select_one)))
                     executing_world in
  sessionState w' = Idle
  /\ inflight w' = remove_nth 0 (inflight executing_world)
  /\ loading (ui w') = false
  /\ abortController (ui w') = None
  /\ (exists r, result (ui w') = Some r).
Proof.
  apply (execution_returns_to_idle executing_world 0
           {| host := "localhost"; port := "3306"; user := "root";
              password := "secret"; database := "" |} "SELECT 1" 0).
  - exists (fill_in_form ++ [Submit])%list. vm_compute. reflexivity.
  - reflexivity.
  - reflexivity.
Defined.

Lemma not_aborted_above (l : list nat) (n : nat) :
  Forall (fun c => c < n) l -> existsb (Nat.eqb n) l = false.
Proof.
  induction 1 as [|c l Hc _ IH]; simpl; auto.
  rewrite IH. destruct (Nat.eqb_spec n c); [lia | reflexivity].
Qed.

(** X8. A query is never born cancelled: on every reachable page an
    accepted submission gets a controller that has not been aborted,
    however many earlier queries were cancelled, so the body its request is
    answered with is what the page shows. *)
Theorem submitted_query_not_cancelled (w : World) (json : QueryResult) :
  reachable w ->
  submitDisabled (ui w) || negb (requiredFilled (ui w)) = false ->
  let w' := dispatch Submit w in
  abortController (ui w') = Some (allocated w)
  /\ is_aborted (allocated w) w' = false
  /\ result (ui (dispatch (Settle 0 (Fulfilled (QueryBody json))) w'))
     = Some json.
Proof.
  intros Hr Hguard. cbv zeta. destruct (reachable_inv w Hr) as [_ Ha].
  assert (Hfresh : is_aborted (allocated w) (dispatch Submit w) = false).
  { unfold dispatch. rewrite Hguard. unfold is_aborted. simpl.
    now apply not_aborted_above. }
  split; [unfold dispatch; now rewrite Hguard|]. split; [exact Hfresh|].
  assert (Hnth : nth_error (inflight (dispatch Submit w)) 0
                 = Some (AwaitExecuteSql (credentials (ui w)) (query (ui w))
                                         (allocated w))).
  { unfold dispatch. now rewrite Hguard. }
  assert (Hres : resume (dispatch Submit w)
                        (AwaitExecuteSql (credentials (ui w)) (query (ui w))
                                         (allocated w))
                        (Fulfilled (QueryBody json))
                 = Some (handleSubmit_resumed (Resolved json)))
    by (unfold resume; rewrite Hfresh; reflexivity).
  unfold dispatch at 1. rewrite Hnth, Hres. reflexivity.
Qed.

Lemma submitted_query_not_cancelled_witness :
  aborted cancelled_world = [0]
  /\ let w' := dispatch Submit cancelled_world in
     abortController (ui w') = Some (allocated cancelled_world)
     /\ is_aborted (allocated cancelled_world) w' = false
     /\ result (ui (dispatch (Settle 0 (Fulfilled (QueryBody select_one))) w'))
        = Some select_one.
Proof.
  split; [vm_compute; reflexivity|].
  apply (submitted_query_not_cancelled cancelled_world select_one).
  - exists (fill_in_form
            ++ [Submit; ClickCancelQuery; Settle 0 (Rejected JS.AbortError)])%list.
    vm_compute. reflexivity.
  - vm_compute. reflexivity.
Defined.

(** ** Test Connection *)

Lemma sessionState_forget_other (w : World) (i : nat) (k : Pending) :
  nth_error (inflight w) i = Some k -> is_session k = false ->
  sessionState (forget i w) = sessionState w.
Proof.
  intros Hnth Hk. unfold sessionState. simpl.
  rewrite (sessionState_of_session (remove_nth i (inflight w))).
  rewrite (filter_remove_nth_other is_session _ i k Hnth Hk).
  now rewrite <- sessionState_of_session.
Qed.

Lemma sessionState_forget_session (w : World) (i : nat) (k : Pending) :
  inv w -> nth_error (inflight w) i = Some k -> is_session k = true ->
  sessionState (forget i w) = Idle.
Proof.
  intros Hw Hnth Hk. apply idle_iff_no_session.
  exact (proj2 (inv_forget_session w i k Hnth Hk Hw)).
Qed.

Lemma probing_settle (w : World) (i : nat) (k : Pending) (o : Outcome)
  (acts : list Action) :
  nth_error (inflight w) i = Some k -> resume w k o = Some acts ->
  inv w -> probing_unconnected w -> probing_unconnected (perform acts (forget i w)).
Proof.
  intros Hnth Hres Hw Hp. unfold probing_unconnected in *.
  destruct k as [cap | body seen | body seen | body sql c | rows fn | fp ps].
  - rewrite <- (sessionState_forget_other w i _ Hnth eq_refl) in Hp.
    destruct o as [[j| | | |]|e]; simpl in Hres; inversion Hres; subst;
      unfold loadSavedSettings_resumed; case_guards; exact Hp.
  - pose proof (sessionState_forget_session w i _ Hw Hnth eq_refl) as Hidle.
    unfold sessionState in *. simpl in Hidle.
    destruct o as [[|j| | |]|e]; simpl in Hres; inversion Hres; subst;
      unfold onClickTestConnection_resumed; case_guards; simpl;
      try rewrite Hidle; auto; discriminate.
  - pose proof (sessionState_forget_session w i _ Hw Hnth eq_refl) as Hidle.
    unfold sessionState in *. simpl in Hidle.
    destruct o as [[| |j| |]|e]; simpl in Hres; inversion Hres; subst;
      unfold fetchDatabases_resumed; case_guards; simpl;
      rewrite Hidle; discriminate.
  - pose proof (sessionState_forget_session w i _ Hw Hnth eq_refl) as Hidle.
    unfold sessionState in *. simpl in Hidle. simpl in Hres.
    destruct (is_aborted c w), o as [[|j| | |]|e]; inversion Hres; subst;
      unfold handleSubmit_resumed; simpl; case_guards; simpl;
      rewrite Hidle; discriminate.
  - rewrite <- (sessionState_forget_other w i _ Hnth eq_refl) in Hp.
    destruct o as [[| | |j|]|e]; simpl in Hres; inversion Hres; subst;
      unfold onClickSaveCsv_resumed; case_guards; exact Hp.
  - rewrite <- (sessionState_forget_other w i _ Hnth eq_refl) in Hp.
    destruct o as [[| | | |j]|e]; simpl in Hres; inversion Hres; subst;
      exact Hp.
Qed.

Lemma dispatch_probing (ev : Event) (w : World) :
  inv w -> probing_unconnected w -> probing_unconnected (dispatch ev w).
Proof.
  intros Hw Hp. destruct ev; unfold dispatch;
    try exact Hp;
    try (match goal with |- context [if ?b then _ else _] => destruct b end;
         exact Hp).
  - destruct (submitDisabled (ui w) || negb (requiredFilled (ui w)));
      [exact Hp | discriminate].
  - destruct (cancelRendered (ui w)); [|exact Hp].
    unfold handleCancelQuery. destruct (abortController (ui w)) as [c|]; [|exact Hp].
    simpl. destruct (is_aborted c w); exact Hp.
  - destruct (testConnectionDisabled (ui w)); [exact Hp | intros _; reflexivity].
  - destruct (saveCsvRendered (ui w) && negb (saveCsvDisabled (ui w)));
      [|exact Hp].
    unfold onClickSaveCsv. case_guards; exact Hp.
  - destruct (executeCardRendered (ui w) && negb (executeDisabled (ui w)));
      [|exact Hp].
    unfold onClickExecute. case_guards; exact Hp.
  - destruct (nth_error (inflight w) i) as [k|] eqn:Hnth; [|exact Hp].
    destruct (resume w k o) as [acts|] eqn:Hres; [|exact Hp].
    now apply (probing_settle w i k o).
Qed.

Lemma reachable_probing (w : World) : reachable w -> probing_unconnected w.
Proof.
  intros [evs ->]. unfold run.
  assert (H : inv mounted /\ probing_unconnected mounted)
    by (split; [exact inv_mounted | discriminate]).
  revert H. generalize mounted.
  induction evs as [|ev evs IH]; intros w0 [Hi Hp]; simpl; auto.
  apply IH. split; [now apply dispatch_inv | now apply dispatch_probing].
Qed.

Lemma probing_when_awaited (w : World) (i : nat) (body : Credentials)
  (seen : option QueryResult) :
  inv w -> nth_error (inflight w) i = Some (AwaitTestConnection body seen) ->
  sessionState w = Probing.
Proof.
  intros Hw Hnth.
  destruct (inv_forget_session w i _ Hnth eq_refl Hw) as [E _].
  unfold sessionState. rewrite sessionState_of_session.
  unfold session_requests in E. now rewrite E.
Qed.

(** X9. A failed probe (a throw, or a body reporting failure) ends the
    session without asking for the databases: the page is Idle with the
    spinner off, the connected flag is cleared, the database list is the one
    it was, and what is shown is the body as received or, for a throw,
    "Failed to test connection. Please try again.". *)
Theorem probe_failure
  (w : World) (i : nat) (body : Credentials) (seen : option QueryResult)
  (o : Settled QueryResult) :
  reachable w ->
  nth_error (inflight w) i = Some (AwaitTestConnection body seen) ->
  probe_failed o = true ->
  let w' := dispatch (Settle i (query_outcome o)) w in
  result (ui w')
  = Some (match o with
          | Resolved json => json
          | Threw _ => failure "Failed to test connection. Please try again."
          end)
  /\ isConnected (ui w') = false
  /\ databaseSelectRendered (ui w') = false
  /\ databases (ui w') = databases (ui w)
  /\ loading (ui w') = false
  /\ inflight w' = remove_nth i (inflight w)
  /\ sessionState w' = Idle.
Proof.
  intros Hr Hnth Hfail. cbv zeta. pose proof (reachable_inv w Hr) as Hw.
  pose proof (reachable_probing w Hr (probing_when_awaited w i body seen Hw Hnth))
    as Hdown.
  assert (Hres : exists acts,
    resume w (AwaitTestConnection body seen) (query_outcome o) = Some acts
    /\ forallb (fun a => match a with fetch _ => false | _ => true end) acts = true
    /\ perform acts (forget i w)
       = perform [setResult (Some (match o with
                                   | Resolved json => json
                                   | Threw _ => failure
                                       "Failed to test connection. Please try again."
                                   end));
                  setIsConnected false; setLoading false] (forget i w)).
  { destruct o as [json|e]; simpl in *.
    - apply negb_true_iff in Hfail. rewrite Hfail.
      eexists; repeat split.
    - eexists; split; [reflexivity|]. split; [reflexivity|].
      simpl. unfold set_state; simpl. now rewrite Hdown. }
  destruct Hres as (acts & Hres & Hnofetch & Hperf).
  destruct (settled_session_idle w i _ acts Hw Hnth eq_refl Hnofetch)
    as [Hidle Hfl].
  unfold dispatch. rewrite Hnth, Hres. rewrite Hperf in *.
  repeat split; auto.
Qed.

Lemma probe_failure_witness :
  let w' := dispatch (Settle 0 (Rejected network_error)) probing_world in
  result (ui w')
  = Some (failure "Failed to test connection. Please try again.")
  /\ isConnected (ui w') = false
  /\ databaseSelectRendered (ui w') = false
  /\ databases (ui w') = databases (ui probing_world)
  /\ loading (ui w') = false
  /\ inflight w' = remove_nth 0 (inflight probing_world)
  /\ sessionState w' = Idle.
Proof.
  apply (probe_failure probing_world 0
           {| host := "localhost"; port := "3306"; user := "root";
              password := "secret"; database := "" |}
           None (Threw network_error)).
  - exists (fill_in_form ++ [ClickTestConnection])%list. vm_compute. reflexivity.
  - reflexivity.
  - reflexivity.
Defined.

(** X10. A successful probe followed by a successful enumeration: the
    connected flag is set, the database list is replaced by the list
    received (whatever it held before), and the page is Idle with the
    spinner off.  The probe's body stays on display unless the result on
    display when Test Connection was clicked was an error containing
    "Failed to fetch databases": then the display is cleared. *)
Theorem connection_established
  (w : World) (i : nat) (body : Credentials) (seen : option QueryResult)
  (probe : QueryResult) (json : DatabasesJson) :
  reachable w ->
  nth_error (inflight w) i = Some (AwaitTestConnection body seen) ->
  success probe = true ->
  list_success json = true ->
  let w1 := dispatch (Settle i (Fulfilled (QueryBody probe))) w in
  let w2 := dispatch (Settle 0 (Fulfilled (DatabasesBody json))) w1 in
  sessionState w1 = Listing
  /\ loading (ui w1) = true
  /\ isConnected (ui w2) = true
  /\ databases (ui w2) = list_databases json
  /\ result (ui w2) = (if shows_fetch_failure seen then None else Some probe)
  /\ loading (ui w2) = false
  /\ sessionState w2 = Idle
  /\ inflight w2 = remove_nth i (inflight w).
Proof.
  intros Hr Hnth Hok Hlist. cbv zeta. pose proof (reachable_inv w Hr) as Hw.
  set (w1 := dispatch (Settle i (Fulfilled (QueryBody probe))) w).
  assert (Hw1 : w1 = perform [setResult (Some probe); setIsConnected true;
                              setLoading true;
                              fetch (AwaitListDatabases body seen)]
                             (forget i w)).
  { unfold w1, dispatch. rewrite Hnth. simpl. now rewrite Hok. }
  assert (Hr1 : reachable w1).
  { destruct Hr as [evs ->].
    exists (evs ++ [Settle i (Fulfilled (QueryBody probe))])%list.
    unfold w1, run. now rewrite fold_left_app. }
  pose proof (reachable_inv w1 Hr1) as Hinv1.
  assert (Hn1 : nth_error (inflight w1) 0 = Some (AwaitListDatabases body seen))
    by now rewrite Hw1.
  split; [now rewrite Hw1|]. split; [now rewrite Hw1|].
  set (acts := ((setDatabases (list_databases json)
                   :: (if shows_fetch_failure seen then [setResult None] else []))
                ++ [setLoading false; setLoading false])%list).
  assert (Hres : resume w1 (AwaitListDatabases body seen)
                        (Fulfilled (DatabasesBody json)) = Some acts).
  { simpl. unfold fetchDatabases_resumed, onClickTestConnection_finally, acts.
    rewrite Hlist. now rewrite <- app_assoc. }
  assert (Hnofetch : forallb (fun a => match a with fetch _ => false | _ => true end)
                             acts = true)
    by (unfold acts; destruct (shows_fetch_failure seen); reflexivity).
  destruct (settled_session_idle w1 0 _ acts Hinv1 Hn1 eq_refl Hnofetch)
    as [Hidle Hfl].
  unfold dispatch at 1 2 3 4 5 6. rewrite Hn1, Hres.
  split; [|split; [|split; [|split; [|split; [exact Hidle|]]]]].
  - unfold acts. rewrite Hw1. destruct (shows_fetch_failure seen); reflexivity.
  - unfold acts. destruct (shows_fetch_failure seen); reflexivity.
  - unfold acts. rewrite Hw1. destruct (shows_fetch_failure seen); reflexivity.
  - unfold acts. destruct (shows_fetch_failure seen); reflexivity.
  - rewrite Hfl, Hw1. reflexivity.
Qed.

Lemma connection_established_witness :
  let w1 := dispatch (Settle 0 (Fulfilled (QueryBody probe_ok))) retry_world in
  let w2 := dispatch (Settle 0 (Fulfilled (DatabasesBody two_databases))) w1 in
  sessionState w1 = Listing
  /\ loading (ui w1) = true
  /\ isConnected (ui w2) = true
  /\ databases (ui w2) = list_databases two_databases
  /\ result (ui w2)
     = (if shows_fetch_failure
             (Some (failure
                "Failed to fetch databases. Please check your connection and try again."))
        then None else Some probe_ok)
  /\ loading (ui w2) = false
  /\ sessionState w2 = Idle
  /\ inflight w2 = remove_nth 0 (inflight retry_world).
Proof.
  apply (connection_established retry_world 0
           {| host := "localhost"; port := "3306"; user := "root";
              password := "secret"; database := "" |}
           (Some (failure
              "Failed to fetch databases. Please check your connection and try again."))
           probe_ok two_databases).
  - exists (fill_in_form
            ++ [ClickTestConnection; Settle 0 (Fulfilled (QueryBody probe_ok));
                Settle 0 (Rejected network_error); ClickTestConnection])%list.
    vm_compute. reflexivity.
  - vm_compute. reflexivity.
  - reflexivity.
  - reflexivity.
Defined.

Example retry_clears_display :
  result (ui (run [ Settle 0 (Fulfilled (QueryBody probe_ok));
                    Settle 0 (Fulfilled (DatabasesBody two_databases)) ]
                  retry_world)) = None.
Proof. vm_compute. reflexivity. Qed.

(** ** What changes a hook *)

(** A hook that no action of a handler segment sets is unchanged by it. *)
Lemma perform_ui_frame {X : Type} (hook : State -> X)
  (acts : list Action) (w : World) :
  Forall (fun a => forall s, hook (set_state a s) = hook s) acts ->
  hook (ui (perform acts w)) = hook (ui w).
Proof.
  intros H; revert w; induction H as [|a acts Ha _ IH]; intros w; simpl; auto.
  unfold perform in IH. rewrite IH.
  destruct a; simpl; auto. destruct (is_aborted c w); reflexivity.
Qed.

Ltac frame := apply perform_ui_frame; repeat constructor.

Ltac unfold_handlers :=
  unfold onChangeHost, onChangePort, onChangeUser, onChangePassword,
    onChangeDatabase, handleSubmit, handleCancelQuery, onClickTestConnection,
    onClickSaveCsv, onClickExecute, loadSavedSettings_resumed,
    onClickTestConnection_resumed, fetchDatabases_resumed,
    onClickTestConnection_finally, handleSubmit_resumed,
    onClickSaveCsv_resumed, onClickExecute_resumed.

(** The hook is the same after the handler segment as before. *)
Ltac untouched :=
  unfold_handlers; case_guards; cbv beta iota; try reflexivity;
  lazymatch goal with
  | |- ?hook (ui (perform _ (forget ?i ?w))) = ?hook (ui ?w) =>
      change (hook (ui w)) with (hook (ui (forget i w))); frame
  | |- _ => frame
  end.

(** X11. The saved CSV path changes only when an awaited export is
    answered with success, and then it becomes the [filePath] of the answer;
    no other event, operator's or network's, touches it. *)
Theorem saved_path_set_only_by_export (ev : Event) (w : World) :
  savedCsvPath (ui (dispatch ev w)) = savedCsvPath (ui w)
  \/ exists i rows filename json,
       ev = Settle i (Fulfilled (SaveCsvBody json))
       /\ nth_error (inflight w) i = Some (AwaitSaveCsv rows filename)
       /\ save_success json = true
       /\ savedCsvPath (ui (dispatch ev w)) = filePath json.
Proof.
  destruct ev; unfold dispatch; try (left; untouched; fail).
  - left. unfold handleCancelQuery.
    destruct (abortController (ui w)); untouched.
  - destruct (nth_error (inflight w) i) as [k|] eqn:Hnth; [|now left].
    destruct k, o as [[| | | |]|]; simpl; try (left; untouched; fail).
    destruct (save_success json) eqn:Hok.
    + right. exists i, rows, filename, json. repeat split; auto.
    + left. reflexivity.
Qed.

(** X12. The database list changes only when an awaited enumeration is
    answered with success, and then it becomes the list of the answer:
    typing, probing, querying, exporting and failures never alter it. *)
Theorem databases_set_only_by_enumeration (ev : Event) (w : World) :
  databases (ui (dispatch ev w)) = databases (ui w)
  \/ exists i body seen json,
       ev = Settle i (Fulfilled (DatabasesBody json))
       /\ nth_error (inflight w) i = Some (AwaitListDatabases body seen)
       /\ list_success json = true
       /\ databases (ui (dispatch ev w)) = list_databases json.
Proof.
  destruct ev; unfold dispatch; try (left; untouched; fail).
  - left. unfold handleCancelQuery.
    destruct (abortController (ui w)); untouched.
  - destruct (nth_error (inflight w) i) as [k|] eqn:Hnth; [|now left].
    destruct k, o as [[| | | |]|]; simpl; try (left; untouched; fail).
    destruct (list_success json) eqn:Hok.
    + right. exists i, body, seen, json. repeat split; auto.
      unfold fetchDatabases_resumed. rewrite Hok.
      destruct (shows_fetch_failure seen); reflexivity.
    + left. unfold fetchDatabases_resumed. rewrite Hok. reflexivity.
Qed.

(** X13. The connected flag is raised only by a successful answer to an
    awaited probe: after any other event it is set only if it was set
    before. *)
Theorem connected_only_by_probe (ev : Event) (w : World) :
  isConnected (ui (dispatch ev w)) = true ->
  isConnected (ui w) = true
  \/ exists i body seen json,
       ev = Settle i (Fulfilled (QueryBody json))
       /\ nth_error (inflight w) i = Some (AwaitTestConnection body seen)
       /\ success json = true.
Proof.
  assert (Hsame : isConnected (ui (dispatch ev w)) = isConnected (ui w)
                  \/ isConnected (ui (dispatch ev w)) = false
                  \/ exists i body seen json,
                       ev = Settle i (Fulfilled (QueryBody json))
                       /\ nth_error (inflight w) i
                          = Some (AwaitTestConnection body seen)
                       /\ success json = true).
  { destruct ev; unfold dispatch; try (left; untouched; fail).
    - left. unfold handleCancelQuery.
      destruct (abortController (ui w)); untouched.
    - destruct (testConnectionDisabled (ui w)); [now left|].
      right; left. reflexivity.
    - destruct (nth_error (inflight w) i) as [k|] eqn:Hnth; [|now left].
      destruct k, o as [[| | | |]|]; simpl; try (left; untouched; fail).
      + destruct (success json) eqn:Hok.
        * right; right. exists i, body, seen, json. auto.
        * right; left. reflexivity.
      + destruct (list_success json) eqn:Hok.
        * left. unfold fetchDatabases_resumed. rewrite Hok.
          destruct (shows_fetch_failure seen); reflexivity.
        * right; left. unfold fetchDatabases_resumed. now rewrite Hok.
      + right; left. reflexivity. }
  intros Hup. destruct Hsame as [E | [E | H]]; [left | | right; exact H];
    congruence.
Qed.

Lemma connected_only_by_probe_witness :
  isConnected (ui probing_world) = false
  /\ (isConnected (ui probing_world) = true
      \/ exists i body seen json,
           Settle 0 (Fulfilled (QueryBody probe_ok))
           = Settle i (Fulfilled (QueryBody json))
           /\ nth_error (inflight probing_world) i
              = Some (AwaitTestConnection body seen)
           /\ success json = true).
Proof.
  split; [vm_compute; reflexivity|].
  apply (connected_only_by_probe (Settle 0 (Fulfilled (QueryBody probe_ok)))
                                 probing_world).
  vm_compute. reflexivity.
Defined.

(** X14. No response alters what the operator typed: query text, file
    name, executable path and parameters are the same after any network
    completion, and so are the credentials unless the completion is the
    successful loading of the admin settings. *)
Theorem responses_keep_the_form (i : nat) (o : Outcome) (w : World) :
  let w' := dispatch (Settle i o) w in
  query (ui w') = query (ui w)
  /\ csvFilename (ui w') = csvFilename (ui w)
  /\ executablePath (ui w') = executablePath (ui w)
  /\ executableParams (ui w') = executableParams (ui w)
  /\ (credentials (ui w') = credentials (ui w)
      \/ exists captured json,
           nth_error (inflight w) i = Some (AwaitAdminSettings captured)
           /\ o = Fulfilled (SettingsBody json)
           /\ settings_success json = true).
Proof.
  cbv zeta. unfold dispatch.
  destruct (nth_error (inflight w) i) as [k|] eqn:Hnth;
    [|repeat split; now left].
  assert (Hsettings : forall captured json,
            k = AwaitAdminSettings captured ->
            o = Fulfilled (SettingsBody json) ->
            settings_success json = true ->
            exists captured0 json0,
              Some k = Some (AwaitAdminSettings captured0)
              /\ o = Fulfilled (SettingsBody json0)
              /\ settings_success json0 = true)
    by (intros captured json -> -> Hok; eauto).
  destruct k, o as [[| | | |]|]; simpl;
    (split; [untouched | split; [untouched | split; [untouched
      | split; [untouched | ]]]]);
    try (left; untouched; fail).
  destruct (settings_success json) eqn:Hok.
  - right. exact (Hsettings captured json eq_refl eq_refl Hok).
  - left. reflexivity.
Qed.

(** ** Requests on their way *)

Lemma perform_well_formed (acts : list Action) (w : World) :
  Forall sends_well_formed acts ->
  Forall well_formed (inflight w) ->
  Forall well_formed (inflight (perform acts w)).
Proof.
  intros H; revert w; induction H as [|a acts Ha _ IH]; intros w Hw; simpl; auto.
  apply IH. destruct a; simpl; auto.
  destruct (is_aborted c w); auto.
Qed.

Lemma resume_well_formed (w : World) (k : Pending) (o : Outcome)
  (acts : list Action) :
  resume w k o = Some acts -> Forall sends_well_formed acts.
Proof.
  destruct k, o as [[| | | |]|]; simpl; intros H;
    repeat match type of H with
           | context [if ?b then _ else _] => destruct b
           end;
    try discriminate; injection H as <-;
    unfold_handlers; case_guards; repeat constructor.
Qed.

(** X15. Every request on its way passed its trigger's guard: on every
    reachable page an awaited query carries a non-empty host, port, user,
    password and SQL text, an awaited export a non-empty file name and at
    least one row, and an awaited invocation a non-empty executable path
    and at least one parameter. *)
Theorem requests_well_formed (w : World) :
  reachable w -> Forall well_formed (inflight w).
Proof.
  intros [evs ->]. unfold run.
  assert (H0 : Forall well_formed (inflight mounted)) by (repeat constructor).
  revert H0. generalize mounted.
  induction evs as [|ev evs IH]; intros w Hw; simpl; auto.
  apply IH. clear IH evs. destruct ev; unfold dispatch;
    try (apply perform_well_formed; [repeat constructor | exact Hw]; fail);
    try (match goal with |- context [if ?b then _ else _] => destruct b end;
         [apply perform_well_formed; [repeat constructor | exact Hw] | exact Hw];
         fail).
  - (* Submit *)
    destruct (submitDisabled (ui w) || negb (requiredFilled (ui w))) eqn:G;
      [exact Hw|].
    apply orb_false_elim in G as [_ G]. apply negb_false_iff in G.
    unfold requiredFilled in G.
    repeat (apply andb_prop in G as [G ?]).
    apply perform_well_formed; [|exact Hw]. repeat constructor; assumption.
  - (* Cancel *)
    destruct (cancelRendered (ui w)); [|exact Hw].
    apply perform_well_formed; [|exact Hw].
    unfold handleCancelQuery. destruct (abortController (ui w));
      repeat constructor.
  - (* Test Connection *)
    destruct (testConnectionDisabled (ui w)); [exact Hw|].
    apply perform_well_formed; [repeat constructor | exact Hw].
  - (* Save CSV *)
    destruct (saveCsvRendered (ui w) && negb (saveCsvDisabled (ui w))) eqn:G;
      [|exact Hw].
    apply andb_prop in G as [Gshown Gname].
    apply perform_well_formed; [|exact Hw].
    unfold onClickSaveCsv. unfold saveCsvDisabled in Gname.
    apply negb_true_iff in Gname. rewrite Gname.
    apply negb_false_iff in Gname.
    unfold saveCsvRendered in Gshown.
    destruct (result (ui w)) as [r|]; [|discriminate].
    apply andb_prop in Gshown as [_ Grows].
    destruct (data r) as [| |[|first rest]| |]; try discriminate.
    repeat constructor; [exact Gname | eauto].
  - (* Execute *)
    destruct (executeCardRendered (ui w) && negb (executeDisabled (ui w))) eqn:G;
      [|exact Hw].
    apply andb_prop in G as [_ Gpath].
    apply perform_well_formed; [|exact Hw].
    unfold onClickExecute. unfold executeDisabled in Gpath.
    apply negb_true_iff in Gpath. rewrite Gpath.
    apply negb_false_iff in Gpath.
    repeat constructor; [exact Gpath|].
    intros Hnil. apply map_eq_nil in Hnil. exact (split_nonempty _ _ Hnil).
  - (* Settle *)
    destruct (nth_error (inflight w) i) as [k|] eqn:Hnth; [|exact Hw].
    destruct (resume w k o) as [acts|] eqn:Hres; [|exact Hw].
    apply perform_well_formed.
    + exact (resume_well_formed w k o acts Hres).
    + simpl. now apply remove_nth_Forall.
Qed.

Lemma requests_well_formed_witness :
  Forall well_formed (inflight (run workflow mounted)).
Proof.
  apply (requests_well_formed (run workflow mounted)).
  exists workflow. reflexivity.
Defined.

(** ** Settings, export and invocation outside the session *)

(** X16. A failed loading of the admin settings (a throw, or a body
    reporting failure) is silent: no hook changes, the session state is the
    same, and only the suspended loader is gone. *)
Theorem settings_failure_silent
  (w : World) (i : nat) (captured : Credentials) (o : Settled SettingsJson) :
  nth_error (inflight w) i = Some (AwaitAdminSettings captured) ->
  settings_failed o = true ->
  let w' := dispatch (Settle i (settings_outcome o)) w in
  ui w' = ui w
  /\ inflight w' = remove_nth i (inflight w)
  /\ sessionState w' = sessionState w
  /\ aborted w' = aborted w.
Proof.
  intros Hnth Hfail. cbv zeta.
  assert (E : dispatch (Settle i (settings_outcome o)) w = forget i w).
  { unfold dispatch. rewrite Hnth. destruct o as [json|e]; simpl in *.
    - apply negb_true_iff in Hfail. now rewrite Hfail.
    - reflexivity. }
  rewrite E. repeat split.
  exact (sessionState_forget_other w i _ Hnth eq_refl).
Qed.

Lemma settings_failure_silent_witness :
  let w' := dispatch (Settle 1 (Rejected network_error)) executing_world in
  ui w' = ui executing_world
  /\ inflight w' = remove_nth 1 (inflight executing_world)
  /\ sessionState w' = sessionState executing_world
  /\ aborted w' = aborted executing_world.
Proof.
  exact (settings_failure_silent executing_world 1 initialCredentials
           (Threw network_error) eq_refl eq_refl).
Defined.

(** X17. When an awaited invocation settles, the result shown is built
    from the answer (success flag and error text as received, the output as
    data on success, [null] on failure) and nothing else changes.  A
    reported failure is shown with the collaborator's error text as it is,
    also when there is none; "Failed to execute file" appears only for a
    thrown value that is not an [Error]. *)
Theorem invocation_outcome
  (w : World) (i : nat) (filePath : string) (parameters : list string)
  (o : Settled ExecuteFileJson) :
  nth_error (inflight w) i = Some (AwaitExecuteFile filePath parameters) ->
  let w' := dispatch (Settle i (execute_file_outcome o)) w in
  ui w' = set_state (setResult (Some (invocation_result o))) (ui w)
  /\ inflight w' = remove_nth i (inflight w)
  /\ sessionState w' = sessionState w
  /\ resultCard (ui w')
     = match o with
       | Resolved json =>
           if run_success json then
             match output json with
             | DArray (first :: rest) =>
                 TableView (map fst first) (map (map snd) (first :: rest))
             | DNull => ExecutedView None
             | d => ExecutedView (Some d)
             end
           else AlertView (run_error json)
       | Threw e =>
           AlertView (Some (if JS.isError e then JS.message e
                            else "Failed to execute file"))
       end.
Proof.
  intros Hnth. cbv zeta.
  assert (E : dispatch (Settle i (execute_file_outcome o)) w
              = perform [setResult (Some (invocation_result o))] (forget i w)).
  { unfold dispatch. rewrite Hnth. destruct o; reflexivity. }
  rewrite E. split; [reflexivity|]. split; [reflexivity|]. split.
  - exact (sessionState_forget_other w i _ Hnth eq_refl).
  - destruct o as [json|e]; unfold resultCard; simpl.
    + destruct (run_success json); reflexivity.
    + reflexivity.
Qed.

Lemma invocation_outcome_witness :
  let w' := dispatch (Settle 0 (Fulfilled (ExecuteFileBody tool_failed)))
                     invoking_world in
  result (ui w')
  = Some {| success := false; data := DNull; error := None; message := None |}
  /\ resultCard (ui w') = AlertView None
  /\ savedCsvPath (ui w') = "/tmp/out.csv".
Proof.
  destruct (invocation_outcome invoking_world 0 "/usr/bin/import"
              ["--in"; "/tmp/out.csv"] (Resolved tool_failed) eq_refl)
    as (Hui & _ & _ & Hcard).
  cbn [execute_file_outcome] in Hui, Hcard.
  cbv zeta. split; [now rewrite Hui|]. split; [exact Hcard|].
  now rewrite Hui.
Defined.

(** X18. A successful export leaves the results card as it was: when the
    display still holds the tabular result the export was started from, the
    same table is shown afterwards (the message "CSV file saved
    successfully" is not rendered) and Save CSV is still offered.  The
    Execute File card is shown afterwards exactly when the path received is
    not empty. *)
Theorem export_keeps_the_card
  (w : World) (i : nat) (rows : Data) (filename : string)
  (r : QueryResult) (json : SaveCsvJson) :
  nth_error (inflight w) i = Some (AwaitSaveCsv rows filename) ->
  result (ui w) = Some r ->
  data r = rows ->
  saveCsvRendered (ui w) = true ->
  save_success json = true ->
  let w' := dispatch (Settle i (Fulfilled (SaveCsvBody json))) w in
  resultCard (ui w') = resultCard (ui w)
  /\ (exists headers lines, resultCard (ui w') = TableView headers lines)
  /\ saveCsvRendered (ui w') = true
  /\ executeCardRendered (ui w') = JS.truthy (filePath json).
Proof.
  intros Hnth Hr Hrows Hshown Hok. cbv zeta.
  assert (E : dispatch (Settle i (Fulfilled (SaveCsvBody json))) w
              = perform [setSavedCsvPath (filePath json);
                         setResult (Some {| success := true; data := rows;
                                            error := None;
                                            message := Some "CSV file saved successfully" |})]
                        (forget i w)).
  { unfold dispatch. rewrite Hnth. simpl. unfold onClickSaveCsv_resumed.
    now rewrite Hok. }
  rewrite E. unfold saveCsvRendered in Hshown. rewrite Hr in Hshown.
  apply andb_prop in Hshown as [Hsucc Hnonempty].
  unfold resultCard, saveCsvRendered, executeCardRendered. simpl.
  rewrite Hr, Hsucc, Hrows.
  rewrite Hrows in Hnonempty.
  destruct rows as [| |[|first rest]| |]; try discriminate.
  repeat split. eauto.
Qed.

Lemma export_keeps_the_card_witness :
  let w' := dispatch (Settle 0 (Fulfilled (SaveCsvBody saved_out_csv)))
                     saving_world in
  resultCard (ui w') = resultCard (ui saving_world)
  /\ (exists headers lines, resultCard (ui w') = TableView headers lines)
  /\ saveCsvRendered (ui w') = true
  /\ executeCardRendered (ui w') = JS.truthy (filePath saved_out_csv).
Proof.
  exact (export_keeps_the_card saving_world 0 (data select_one) "out.csv"
           select_one saved_out_csv eq_refl eq_refl eq_refl eq_refl eq_refl).
Defined.

(** X19. The number of parameters sent to the process launcher is fixed by
    the template alone: one more than the template has spaces, whatever the
    saved path is (a path with spaces in it stays inside its parameter), and
    the path sent is the operator's executable path. *)
Theorem invocation_parameters (st : State) :
  JS.truthy (executablePath st) = true ->
  exists parameters,
    onClickExecute st
    = [fetch (AwaitExecuteFile (executablePath st) parameters)]
    /\ parameters
       = map (fun param => JS.replace param "{csv}" (savedCsvPath st))
             (JS.split " " (executableParams st))
    /\ List.length parameters
       = S (count_occ ascii_dec
              (list_ascii_of_string (executableParams st)) " "%char).
Proof.
  intros Hpath. unfold onClickExecute. rewrite Hpath. simpl.
  eexists. split; [reflexivity|]. split; [reflexivity|].
  rewrite length_map. apply split_length.
Qed.

Lemma invocation_parameters_witness :
  exists parameters,
    onClickExecute (ui invoke_world)
    = [fetch (AwaitExecuteFile (executablePath (ui invoke_world)) parameters)]
    /\ parameters
       = map (fun param => JS.replace param "{csv}"
                             (savedCsvPath (ui invoke_world)))
             (JS.split " " (executableParams (ui invoke_world)))
    /\ List.length parameters
       = S (count_occ ascii_dec
              (list_ascii_of_string (executableParams (ui invoke_world)))
              " "%char).
Proof.
  apply (invocation_parameters (ui invoke_world)). vm_compute. reflexivity.
Defined.
